(** * The n8n webhook relay of Open WebUI

    A shallow embedding of [backend/open_webui/routers/n8n_webhook.py], of
    [n8n_config.py] and its import, and of the [.env] rewrite of
    [setup_n8n.py], followed by the properties of the translator and of the
    router.

    Python values are modelled as the interpreter has them: a [str] is a
    sequence of Unicode code points, [bytes] a sequence of octets, a parsed
    JSON document a tree whose objects keep their insertion order.  The async
    generator [stream_n8n_response] becomes a computation in a small monad
    that records, in order, everything the generator does to the outside:
    the request it posts, the log records it writes and the chunks it
    yields. *)

From Stdlib Require Import ZArith String Ascii DecimalString.
From stdpp Require Import gmap list.

Local Open Scope Z_scope.

(** ** Python text and bytes *)

Module Py.

(** A Python [str]: its code points, in order. *)
Definition str : Type := list Z.

(** A Python [bytes] object: its octets, each in [0, 255]. *)
Definition bytes : Type := list Z.

(** The [str] written as an ASCII literal in the source. *)
Definition lit (s : string) : str :=
  map (fun c => Z.of_nat (nat_of_ascii c)) (list_ascii_of_string s).
Arguments lit s%_string.

(** ["\n"] *)
Definition NL : str := [10].

(** [s.startswith(prefix)] *)
Fixpoint startswith (prefix s : str) : bool :=
  match prefix, s with
  | [], _ => true
  | _ :: _, [] => false
  | p :: prefix', c :: s' => (p =? c) && startswith prefix' s'
  end.

(** [needle in s] for two [str] values. *)
Fixpoint contains (needle s : str) : bool :=
  startswith needle s ||
  match s with
  | [] => false
  | _ :: s' => contains needle s'
  end.

(** [c.isspace()] for one code point: the characters CPython's
    [_PyUnicode_IsWhitespace] accepts, which are the ones [str.strip()]
    without argument removes. *)
Definition isspace (c : Z) : bool :=
  ((9 <=? c) && (c <=? 13)) || ((28 <=? c) && (c <=? 32)) ||
  (c =? 133) || (c =? 160) || (c =? 5760) ||
  ((8192 <=? c) && (c <=? 8202)) ||
  (c =? 8232) || (c =? 8233) || (c =? 8239) || (c =? 8287) || (c =? 12288).

(** [s.lstrip()] *)
Fixpoint lstrip (s : str) : str :=
  match s with
  | [] => []
  | c :: s' => if isspace c then lstrip s' else s
  end.

(** [s.rstrip()] *)
Definition rstrip (s : str) : str := rev (lstrip (rev s)).

(** [s.strip()]: leading and trailing whitespace both go. *)
Definition strip (s : str) : str := rstrip (lstrip s).

(** A continuation octet [10xxxxxx] restricted to [lo, hi]. *)
Definition cont_in (lo hi b : Z) : bool := (lo <=? b) && (b <=? hi).

(** The six payload bits of a continuation octet. *)
Definition cont_bits (b : Z) : Z := Z.land b 63.

(** [b.decode('utf-8')] with the default strict error handler: [None]
    stands for the [UnicodeDecodeError] CPython raises on an octet sequence
    that is not well-formed UTF-8 (stray or missing continuation octets,
    overlong forms, surrogates, values above U+10FFFF). *)
Fixpoint utf8_decode (b : bytes) : option str :=
  match b with
  | [] => Some []
  | b0 :: r0 =>
    if (0 <=? b0) && (b0 <? 128) then
      option_map (cons b0) (utf8_decode r0)
    else
    match r0 with
    | [] => None
    | b1 :: r1 =>
      if (194 <=? b0) && (b0 <=? 223) then
        if cont_in 128 191 b1 then
          option_map (cons (Z.lor (Z.shiftl (Z.land b0 31) 6) (cont_bits b1)))
                     (utf8_decode r1)
        else None
      else
      match r1 with
      | [] => None
      | b2 :: r2 =>
        if (224 <=? b0) && (b0 <=? 239) then
          if cont_in (if b0 =? 224 then 160 else 128)
                     (if b0 =? 237 then 159 else 191) b1
             && cont_in 128 191 b2 then
            option_map
              (cons (Z.lor (Z.shiftl (Z.land b0 15) 12)
                       (Z.lor (Z.shiftl (cont_bits b1) 6) (cont_bits b2))))
              (utf8_decode r2)
          else None
        else
        match r2 with
        | [] => None
        | b3 :: r3 =>
          if (240 <=? b0) && (b0 <=? 244) then
            if cont_in (if b0 =? 240 then 144 else 128)
                       (if b0 =? 244 then 143 else 191) b1
               && cont_in 128 191 b2 && cont_in 128 191 b3 then
              option_map
                (cons (Z.lor (Z.shiftl (Z.land b0 7) 18)
                         (Z.lor (Z.shiftl (cont_bits b1) 12)
                            (Z.lor (Z.shiftl (cont_bits b2) 6) (cont_bits b3)))))
                (utf8_decode r3)
            else None
          else None
        end
      end
    end
  end.

(** [str(n)] for an [int]. *)
Definition int_to_str (n : Z) : str := lit (NilEmpty.string_of_int (Z.to_int n)).

(** One lowercase hexadecimal digit, for a value in [0, 15]. *)
Definition hex_digit (d : Z) : Z := if d <? 10 then 48 + d else 87 + d.

(** The [k] low hexadecimal digits of [n], most significant first: the text
    of ['%0kx' % n] when [0 <= n < 16^k]. *)
Fixpoint hex_fixed (k : nat) (n : Z) : str :=
  match k with
  | O => []
  | S k' => hex_digit (Z.land (Z.shiftr n (4 * Z.of_nat k')) 15) :: hex_fixed k' n
  end.

End Py.

(** ** Parsed JSON documents and [json.dumps] *)

Module Json.
Import Py.

(** A Python [float], known by what the program does with it: print it.
    A finite value is identified by its [repr()] text. *)
Inductive pyfloat : Type :=
| Finite (repr : str)
| NaN
| Infinity (negative : bool).

(** What [json.loads] builds and [json.dumps] accepts.  An object is the
    list of its items in insertion order, as a Python [dict] keeps them. *)
#[warnings="-register-all"]
Inductive JSON : Type :=
| JNull
| JBool (b : bool)
| JInt (n : Z)
| JFloat (f : pyfloat)
| JStr (s : str)
| JList (items : list JSON)
| JDict (items : list (str * JSON)).

Definition dict : Type := list (str * JSON).

Definition str_eqb (a b : str) : bool := bool_decide (a = b).

(** [d.get(key, default)] *)
Fixpoint dict_get (d : dict) (key : str) (default : JSON) : JSON :=
  match d with
  | [] => default
  | (k, v) :: d' => if str_eqb k key then v else dict_get d' key default
  end.

(** [key in d] *)
Fixpoint dict_has (d : dict) (key : str) : bool :=
  match d with
  | [] => false
  | (k, _) :: d' => str_eqb k key || dict_has d' key
  end.

(** [bool(v)], the test an [if v:] makes. *)
Definition truthy (v : JSON) : bool :=
  match v with
  | JNull => false
  | JBool b => b
  | JInt n => negb (n =? 0)
  | JFloat (Finite r) => negb (str_eqb r (lit "0.0") || str_eqb r (lit "-0.0"))
  | JFloat _ => true
  | JStr s => negb (str_eqb s [])
  | JList l => match l with [] => false | _ => true end
  | JDict d => match d with [] => false | _ => true end
  end.

(** [type(v).__name__] *)
Definition type_name (v : JSON) : str :=
  match v with
  | JNull => lit "NoneType"
  | JBool _ => lit "bool"
  | JInt _ => lit "int"
  | JFloat _ => lit "float"
  | JStr _ => lit "str"
  | JList _ => lit "list"
  | JDict _ => lit "dict"
  end.

(** ['\\uXXXX'] *)
Definition u_escape (n : Z) : str := [92; 117] ++ hex_fixed 4 n.

(** The replacement [json.encoder.py_encode_basestring_ascii] makes for one
    code point: [ESCAPE_DCT] for the quote, the backslash and the control
    characters, the character itself inside [' '..'~'], a [\u] escape or a
    surrogate pair of escapes beyond. *)
Definition escape_char (c : Z) : str :=
  if c =? 34 then [92; 34]
  else if c =? 92 then [92; 92]
  else if c =? 8 then [92; 98]
  else if c =? 12 then [92; 102]
  else if c =? 10 then [92; 110]
  else if c =? 13 then [92; 114]
  else if c =? 9 then [92; 116]
  else if (32 <=? c) && (c <=? 126) then [c]
  else if c <? 65536 then u_escape c
  else
    let n := c - 65536 in
    u_escape (Z.lor 55296 (Z.land (Z.shiftr n 10) 1023)) ++
    u_escape (Z.lor 56320 (Z.land n 1023)).

(** [json.dumps(s)] for a [str], with the default [ensure_ascii=True]. *)
Definition encode_basestring_ascii (s : str) : str :=
  [34] ++ concat (map escape_char s) ++ [34].

(** [json.dumps(f)] for a [float], with the default [allow_nan=True]. *)
Definition float_dumps (f : pyfloat) : str :=
  match f with
  | Finite r => r
  | NaN => lit "NaN"
  | Infinity false => lit "Infinity"
  | Infinity true => lit "-Infinity"
  end.

(** [json.dumps(v)] with the default separators [", "] and [": "]. *)
Fixpoint json_dumps (v : JSON) : str :=
  match v with
  | JNull => lit "null"
  | JBool true => lit "true"
  | JBool false => lit "false"
  | JInt n => int_to_str n
  | JFloat f => float_dumps f
  | JStr s => encode_basestring_ascii s
  | JList l =>
    lit "[" ++
    (fix items (l : list JSON) : str :=
       match l with
       | [] => []
       | x :: l' =>
         json_dumps x ++
         match l' with [] => [] | _ :: _ => lit ", " ++ items l' end
       end) l ++
    lit "]"
  | JDict d =>
    lit "{" ++
    (fix items (d : list (str * JSON)) : str :=
       match d with
       | [] => []
       | (k, x) :: d' =>
         encode_basestring_ascii k ++ lit ": " ++ json_dumps x ++
         match d' with [] => [] | _ :: _ => lit ", " ++ items d' end
       end) d ++
    lit "}"
  end.

End Json.

(** ** [uuid.uuid4().hex] *)

Module Uuid.
Import Py.

(** [int.from_bytes(b, 'big')] *)
Definition int_from_bytes (b : bytes) : Z :=
  fold_left (fun acc octet => Z.lor (Z.shiftl acc 8) octet) b 0.

(** [uuid.UUID(bytes=b, version=4).int]: the 128-bit value of the octets
    with the RFC 4122 variant and the version number forced in. *)
Definition uuid4_int (b : bytes) : Z :=
  let i := int_from_bytes b in
  let i := Z.land i (Z.lnot (Z.shiftl 49152 48)) in
  let i := Z.lor i (Z.shiftl 32768 48) in
  let i := Z.land i (Z.lnot (Z.shiftl 61440 64)) in
  Z.lor i (Z.shiftl 4 76).

(** [uuid.uuid4().hex], where [b] is what [os.urandom(16)] returned. *)
Definition uuid4_hex (b : bytes) : str := hex_fixed 32 (uuid4_int b).

End Uuid.

(** ** The generator monad

    An async generator of the router runs against an HTTP client, a logger
    and the consumer of what it yields.  Its run is the ordered list of the
    events it caused, ended by a normal return or by an exception that
    escaped. *)

Module Gen.
Import Py Json.

(** The two classes of exception the router tells apart in its handlers:
    [aiohttp.ClientError] (and its subclasses) and every other [Exception].
    [msg] is [str(e)]. *)
Inductive exn : Type :=
| ClientError (msg : str)
| OtherException (msg : str).

(** The arguments of one [session.post(url, headers=, json=, ssl=)]. *)
Record ClientRequest : Type := {
  req_url : str;
  req_headers : gmap (list Z) (list Z);
  req_json : dict;
  req_ssl : bool
}.

Inductive event : Type :=
| Post (rq : ClientRequest)
| LogInfo (msg : str)
| LogError (msg : str)
| Yield (chunk : str).

Definition Gen (A : Type) : Type := (list event * (exn + A))%type.

Definition ret {A : Type} (a : A) : Gen A := ([], inr a).

Definition bind {A B : Type} (m : Gen A) (k : A -> Gen B) : Gen B :=
  match m with
  | (t, inl e) => (t, inl e)
  | (t, inr a) => let '(t', r) := k a in (t ++ t', r)
  end.

#[global] Instance gen_ret : MRet Gen := @ret.
#[global] Instance gen_bind : MBind Gen := fun A B k m => bind m k.

(** [raise e] *)
Definition raise {A : Type} (e : exn) : Gen A := ([], inl e).

(** [await x], where the awaited operation ends as [r] says. *)
Definition await {A : Type} (r : exn + A) : Gen A := ([], r).

Definition emit (ev : event) : Gen unit := ([ev], inr tt).

(** [yield chunk] *)
Definition yield (chunk : str) : Gen unit := emit (Yield chunk).

(** [log.error(msg)] and [log.info(msg)] *)
Definition log_error (msg : str) : Gen unit := emit (LogError msg).
Definition log_info (msg : str) : Gen unit := emit (LogInfo msg).

(** [try: body / except ... as e: handler e], for handlers that between
    them catch every [Exception]. *)
Definition try_except {A : Type} (body : Gen A) (handler : exn -> Gen A) : Gen A :=
  match body with
  | (t, inl e) => let '(t', r) := handler e in (t ++ t', r)
  | (t, inr a) => (t, inr a)
  end.

(** [for x in l: body x] *)
Fixpoint for_each {A : Type} (l : list A) (body : A -> Gen unit) : Gen unit :=
  match l with
  | [] => ret tt
  | x :: l' => bind (body x) (fun _ => for_each l' body)
  end.

(** What a run showed to the outside. *)
Definition trace {A : Type} (m : Gen A) : list event := fst m.

(** The chunks yielded, in order: the body of the HTTP response. *)
Fixpoint yielded (t : list event) : list str :=
  match t with
  | [] => []
  | Yield c :: t' => c :: yielded t'
  | _ :: t' => yielded t'
  end.

(** The messages handed to the logger, in order. *)
Fixpoint logged (t : list event) : list str :=
  match t with
  | [] => []
  | LogInfo m :: t' => m :: logged t'
  | LogError m :: t' => m :: logged t'
  | _ :: t' => logged t'
  end.

(** The requests sent upstream, in order. *)
Fixpoint posted (t : list event) : list ClientRequest :=
  match t with
  | [] => []
  | Post rq :: t' => rq :: posted t'
  | _ :: t' => posted t'
  end.

End Gen.

(** ** [n8n_config.py] *)

Module N8nConfig.
Import Py Json.

(** [os.getenv(name, default)] over the process environment. *)
Definition getenv (environ : gmap (list Z) (list Z)) (name default : str) : str :=
  match environ !! name with
  | Some v => v
  | None => default
  end.

(** The four text settings, which are the ones the router's functions
    read.  The numeric settings ([N8N_TIMEOUT], [N8N_MAX_RETRIES], the
    sampling defaults) and [N8N_DEBUG] are part of [ConfigModule] below: no
    function of the router reads them, but converting them can fail the
    import. *)
Record Settings : Type := {
  N8N_WEBHOOK_URL : str;
  N8N_WEBHOOK_AUTH_TOKEN : str;
  N8N_MODEL_NAME : str;
  N8N_MODEL_DESCRIPTION : str
}.

(** Lines 12-19: the four assignments from [os.getenv], which cannot fail.
    They are the text settings of an import that succeeds; whether it does
    is [import_n8n_config]'s to say. *)
Definition from_environ (environ : gmap (list Z) (list Z)) : Settings := {|
  N8N_WEBHOOK_URL := getenv environ (lit "N8N_WEBHOOK_URL") (lit "YOUR_N8N_WEBHOOK_URL");
  N8N_WEBHOOK_AUTH_TOKEN := getenv environ (lit "N8N_WEBHOOK_AUTH_TOKEN") [];
  N8N_MODEL_NAME := getenv environ (lit "N8N_MODEL_NAME") (lit "n8n-agent");
  N8N_MODEL_DESCRIPTION :=
    getenv environ (lit "N8N_MODEL_DESCRIPTION")
           (lit "n8n Webhook Agent for AI interactions")
|}.

(** The conversions the module applies to the text of a variable: [int(s)]
    and [float(s)], where [None] stands for the [ValueError] they raise on a
    text that is no number, and [s.lower()].  They are the interpreter's. *)
Class Conversions : Type := {
  py_int : str -> option Z;
  py_float : str -> option pyfloat;
  py_lower : str -> str
}.

(** The names the module defines, once its import has succeeded. *)
Record ConfigModule : Type := {
  string_settings : Settings;
  N8N_TIMEOUT : Z;
  N8N_MAX_RETRIES : Z;
  N8N_DEFAULT_TEMPERATURE : pyfloat;
  N8N_DEFAULT_MAX_TOKENS : Z;
  N8N_DEFAULT_TOP_P : pyfloat;
  N8N_DEBUG : bool
}.

(** The module body, lines 12-31, run top to bottom at import.  [None] is
    the [ValueError] of a numeric variable whose text does not parse, as
    [N8N_TIMEOUT=abc]: the import fails and defines nothing. *)
Definition import_n8n_config {cv : Conversions} (environ : gmap (list Z) (list Z))
    : option ConfigModule :=
  timeout ← py_int (getenv environ (lit "N8N_TIMEOUT") (lit "120"));
  max_retries ← py_int (getenv environ (lit "N8N_MAX_RETRIES") (lit "3"));
  temperature ← py_float (getenv environ (lit "N8N_DEFAULT_TEMPERATURE") (lit "0.7"));
  max_tokens ← py_int (getenv environ (lit "N8N_DEFAULT_MAX_TOKENS") (lit "2048"));
  top_p ← py_float (getenv environ (lit "N8N_DEFAULT_TOP_P") (lit "1.0"));
  Some {| string_settings := from_environ environ;
          N8N_TIMEOUT := timeout;
          N8N_MAX_RETRIES := max_retries;
          N8N_DEFAULT_TEMPERATURE := temperature;
          N8N_DEFAULT_MAX_TOKENS := max_tokens;
          N8N_DEFAULT_TOP_P := top_p;
          N8N_DEBUG := str_eqb (py_lower (getenv environ (lit "N8N_DEBUG") (lit "false")))
                               (lit "true") |}.

End N8nConfig.

(** ** [backend/open_webui/routers/n8n_webhook.py] *)

Module N8nWebhook.
Import Py Json Uuid Gen N8nConfig.

(** The built-ins whose output the router passes on without looking at it. *)
Class Builtins : Type := {
  (** [str(v)] for a parsed JSON value *)
  py_str : JSON -> str;
  (** [str(e)] for the [UnicodeDecodeError] that [b.decode('utf-8')] raises *)
  decode_error_text : bytes -> str
}.

(** Lines 27-51: what the router's [from n8n_config import ...] leaves in
    its globals.  [found] says whether the module is on the path.  When it
    is not, the [ImportError] is caught and the fall-back assignments run:
    the URL and the token still come from the environment, the other names
    are constants.  When it is and its body raises [ValueError], nothing
    catches that: the router itself fails to import ([None]) and none of
    its routes exists. *)
Definition import_settings {cv : Conversions} (found : bool)
    (environ : gmap (list Z) (list Z)) : option ConfigModule :=
  if found then import_n8n_config environ
  else
    Some {| string_settings :=
              {| N8N_WEBHOOK_URL :=
                   getenv environ (lit "N8N_WEBHOOK_URL") (lit "YOUR_N8N_WEBHOOK_URL");
                 N8N_WEBHOOK_AUTH_TOKEN := getenv environ (lit "N8N_WEBHOOK_AUTH_TOKEN") [];
                 N8N_MODEL_NAME := lit "n8n-agent";
                 N8N_MODEL_DESCRIPTION := lit "n8n Webhook Agent for AI interactions" |};
            N8N_TIMEOUT := 120;
            N8N_MAX_RETRIES := 3;
            N8N_DEFAULT_TEMPERATURE := Finite (lit "0.7");
            N8N_DEFAULT_MAX_TOKENS := 2048;
            N8N_DEFAULT_TOP_P := Finite (lit "1.0");
            N8N_DEBUG := false |}.

(** The [aiohttp.ClientResponse] the translator reads.  [text] and [json]
    are the outcomes of [await response.text()] and [await response.json()];
    [content] is the list of lines the body iterator delivers and
    [content_end] how the iteration ends: exhausted, or by an exception. *)
Record ClientResponse : Type := {
  status : Z;
  text : exn + str;
  json : exn + JSON;
  content : list bytes;
  content_end : option exn
}.

(** How [session.post] ends: with an exception or with a response.  The
    call follows redirects, as aiohttp does unless told otherwise: the
    response is the one the call hands back, whatever requests the client
    made to get it. *)
Definition Outcome : Type := (exn + ClientResponse)%type.

(** Everything outside the process that a call depends on: the webhook,
    which answers the request it is sent, the 16 octets [os.urandom] hands
    to [uuid.uuid4], and [int(time.time())]. *)
Record World : Type := {
  upstream : ClientRequest -> Outcome;
  urandom16 : bytes;
  clock : Z
}.

(** [class N8NChatCompletionRequest(BaseModel)], after validation. *)
Record N8NChatCompletionRequest : Type := {
  model : str;
  messages : list dict;
  stream : bool;
  temperature : option pyfloat;
  max_tokens : option Z;
  top_p : option pyfloat;
  frequency_penalty : option pyfloat;
  presence_penalty : option pyfloat;
  user : option str
}.

(** What the router reads of the [UserModel] that [get_verified_user]
    supplies. *)
Record UserModel : Type := {
  user_id : str;
  user_name : str;
  user_email : str;
  user_role : str
}.

Definition opt_float (o : option pyfloat) : JSON :=
  match o with Some f => JFloat f | None => JNull end.

Definition opt_int (o : option Z) : JSON :=
  match o with Some n => JInt n | None => JNull end.

(** [f"data: {payload}\n\n"] *)
Definition sse (payload : str) : str := lit "data: " ++ payload ++ NL ++ NL.

(** ["data: [DONE]\n\n"] *)
Definition DONE : str := lit "data: [DONE]" ++ NL ++ NL.

(** [f"data: {json.dumps({'error': message})}\n\n"] *)
Definition error_frame (message : str) : str :=
  sse (json_dumps (JDict [(lit "error", JStr message)])).

(** Lines 80-85: the headers of the outbound request.  [if auth_token:]
    is false for [None] and for the empty string. *)
Definition request_headers (auth_token : option str) : gmap (list Z) (list Z) :=
  let headers := {[ lit "Content-Type" := lit "application/json" ]} in
  match auth_token with
  | Some (c :: tok) => <[ lit "Authorization" := lit "Bearer " ++ c :: tok ]> headers
  | Some [] | None => headers
  end.

(** [session.post(...)]: the request leaves, the webhook answers. *)
Definition session_post (w : World) (rq : ClientRequest) : Gen ClientResponse :=
  emit (Post rq) ;; await (upstream w rq).

(** Lines 97-101: the answer was not a 200. *)
Definition report_http_error (response : ClientResponse) : Gen unit :=
  error_text ← await (text response);
  log_error (lit "n8n webhook error: " ++ int_to_str (status response) ++
             lit " - " ++ error_text) ;;
  yield (error_frame (lit "n8n webhook error: " ++ error_text)).

(** Lines 106-112: one line of a streamed answer. *)
Definition relay_line {rt : Builtins} (line : bytes) : Gen unit :=
  match line with
  | [] => mret tt
  | _ :: _ =>
    decoded ← match utf8_decode line with
              | Some s => mret s
              | None => raise (OtherException (decode_error_text line))
              end;
    let decoded_line := strip decoded in
    if startswith (lit "data: ") decoded_line then
      yield (decoded_line ++ NL ++ NL)
    else
      match decoded_line with
      | _ :: _ => yield (sse decoded_line)
      | [] => mret tt
      end
  end.

(** Lines 105-112: the streamed answer, line by line, until the body
    iterator stops or fails. *)
Definition relay_stream {rt : Builtins} (response : ClientResponse) : Gen unit :=
  for_each (content response) relay_line ;;
  match content_end response with
  | Some e => raise e
  | None => mret tt
  end.

(** Line 125: [result.get("content", result.get("response", str(result)))].
    Only a [dict] has a [get]. *)
Definition reply_content {rt : Builtins} (result : JSON) : Gen JSON :=
  match result with
  | JDict d =>
    mret (dict_get d (lit "content")
            (dict_get d (lit "response") (JStr (py_str result))))
  | _ =>
    raise (OtherException
             (lit "'" ++ type_name result ++ lit "' object has no attribute 'get'"))
  end.

(** Lines 116-134: the completion object built around [content]. *)
Definition formatted_response (model_name : JSON) (w : World) (content : JSON) : JSON :=
  JDict [
    (lit "id", JStr (lit "chatcmpl-" ++ take 8 (uuid4_hex (urandom16 w))));
    (lit "object", JStr (lit "chat.completion"));
    (lit "created", JInt (clock w));
    (lit "model", model_name);
    (lit "choices", JList [
      JDict [
        (lit "index", JInt 0);
        (lit "message", JDict [
          (lit "role", JStr (lit "assistant"));
          (lit "content", content)
        ]);
        (lit "finish_reason", JStr (lit "stop"))
      ]
    ]);
    (lit "usage", JDict [
      (lit "prompt_tokens", JInt 0);
      (lit "completion_tokens", JInt 0);
      (lit "total_tokens", JInt 0)
    ])
  ].

(** Lines 114-136: the buffered answer. *)
Definition synthesize_completion {rt : Builtins} (settings : Settings) (w : World)
    (request_data : dict) (response : ClientResponse) : Gen unit :=
  result ← await (json response);
  content ← reply_content result;
  yield (sse (json_dumps
    (formatted_response
       (dict_get request_data (lit "model") (JStr (N8N_MODEL_NAME settings)))
       w content))) ;;
  yield DONE.

(** Lines 138-143: the two handlers. *)
Definition on_exception (e : exn) : Gen unit :=
  match e with
  | ClientError msg =>
    log_error (lit "n8n webhook connection error: " ++ msg) ;;
    yield (error_frame (lit "Connection error: " ++ msg))
  | OtherException msg =>
    log_error (lit "n8n webhook unexpected error: " ++ msg) ;;
    yield (error_frame (lit "Unexpected error: " ++ msg))
  end.

(** [async def stream_n8n_response(webhook_url, request_data, auth_token)] *)
Definition stream_n8n_response {rt : Builtins} (settings : Settings) (w : World)
    (webhook_url : str) (request_data : dict) (auth_token : option str) : Gen unit :=
  let headers := request_headers auth_token in
  try_except
    (response ← session_post w {| req_url := webhook_url;
                                   req_headers := headers;
                                   req_json := request_data;
                                   req_ssl := false |};
     if negb (status response =? 200) then
       report_http_error response
     else if truthy (dict_get request_data (lit "stream") (JBool false)) then
       relay_stream response
     else
       synthesize_completion settings w request_data response)
    on_exception.

(** [raise HTTPException(status_code=..., detail=...)] *)
Record HTTPException : Type := {
  status_code : Z;
  detail : str
}.

(** [StreamingResponse(content, media_type=..., headers=...)]: [content]
    is the generator, which runs when the server sends the body. *)
Record StreamingResponse : Type := {
  body_iterator : Gen unit;
  media_type : str;
  headers : list (str * str)
}.

(** A route handler logs, then raises an [HTTPException] or returns. *)
Definition Handled (A : Type) : Type := (list event * (HTTPException + A))%type.

(** Lines 189-204: the envelope sent to the webhook. *)
Definition n8n_request (body : N8NChatCompletionRequest) (user : UserModel) : dict := [
  (lit "model", JStr (model body));
  (lit "messages", JList (map JDict (messages body)));
  (lit "stream", JBool (stream body));
  (lit "temperature", opt_float (temperature body));
  (lit "max_tokens", opt_int (max_tokens body));
  (lit "top_p", opt_float (top_p body));
  (lit "frequency_penalty", opt_float (frequency_penalty body));
  (lit "presence_penalty", opt_float (presence_penalty body));
  (lit "user", JDict [
    (lit "id", JStr (user_id user));
    (lit "name", JStr (user_name user));
    (lit "email", JStr (user_email user));
    (lit "role", JStr (user_role user))
  ])
].

(** Line 211: the token handed to the translator. *)
Definition auth_token_arg (settings : Settings) : option str :=
  if str_eqb (N8N_WEBHOOK_AUTH_TOKEN settings) (lit "YOUR_N8N_WEBHOOK_AUTH_TOKEN")
  then None
  else Some (N8N_WEBHOOK_AUTH_TOKEN settings).

(** [@router.post("/chat/completions")] *)
Definition chat_completions {rt : Builtins} (settings : Settings) (w : World)
    (body : N8NChatCompletionRequest) (user : UserModel) : Handled StreamingResponse :=
  let entry := LogInfo (lit "n8n chat completion request from user: " ++ user_email user) in
  let webhook_url := N8N_WEBHOOK_URL settings in
  if str_eqb webhook_url [] || str_eqb webhook_url (lit "YOUR_N8N_WEBHOOK_URL") then
    ([entry],
     inl {| status_code := 500;
            detail := lit "n8n webhook URL not configured. Please set the N8N_WEBHOOK_URL." |})
  else
    ([entry],
     inr {| body_iterator :=
              stream_n8n_response settings w webhook_url (n8n_request body user)
                                  (auth_token_arg settings);
            media_type := lit "text/event-stream";
            headers := [ (lit "Cache-Control", lit "no-cache");
                         (lit "Connection", lit "keep-alive");
                         (lit "X-Accel-Buffering", lit "no") ] |}).

(** [@router.get("/")] *)
Definition get_status (settings : Settings) : dict :=
  let configured := negb (str_eqb (N8N_WEBHOOK_URL settings) (lit "YOUR_N8N_WEBHOOK_URL")) in
  [ (lit "status", JStr (if configured then lit "ready" else lit "not_configured"));
    (lit "configured", JBool configured);
    (lit "model", JStr (lit "n8n-agent"));
    (lit "description", JStr (lit "n8n Webhook Integration for Open WebUI")) ].

(** Everything one call of the chat-completion route causes: what the
    handler logs and, when it returns a response, the run of its body. *)
Definition exchange (r : Handled StreamingResponse) : list event :=
  fst r ++
  match snd r with
  | inl _ => []
  | inr response => trace (body_iterator response)
  end.

End N8nWebhook.

(** ** The vocabulary of the properties *)

Import Py Json Uuid Gen N8nConfig N8nWebhook.

(** The chunks a generator yields: the SSE frames of the response body. *)
Definition frames {A : Type} (m : Gen A) : list str := yielded (trace m).

(** The request [stream_n8n_response] posts (lines 80-95). *)
Definition outbound (webhook_url : str) (request_data : dict)
    (auth_token : option str) : ClientRequest :=
  {| req_url := webhook_url;
     req_headers := request_headers auth_token;
     req_json := request_data;
     req_ssl := false |}.

(** The request-side test of line 104. *)
Definition wants_stream (request_data : dict) : bool :=
  truthy (dict_get request_data (lit "stream") (JBool false)).

(** What the translator does with a response once it has one (lines 97-136). *)
Definition dispatch {rt : Builtins} (settings : Settings) (w : World)
    (request_data : dict) (response : ClientResponse) : Gen unit :=
  if negb (status response =? 200) then report_http_error response
  else if wants_stream request_data then relay_stream response
  else synthesize_completion settings w request_data response.

(** The two branches below the status test: relay or synthesize. *)
Definition success_path {rt : Builtins} (settings : Settings) (w : World)
    (request_data : dict) (response : ClientResponse) : Gen unit :=
  if wants_stream request_data then relay_stream response
  else synthesize_completion settings w request_data response.

(** The log record and the frame an exception handler produces. *)
Definition fault_log (e : exn) : str :=
  match e with
  | ClientError msg => lit "n8n webhook connection error: " ++ msg
  | OtherException msg => lit "n8n webhook unexpected error: " ++ msg
  end.

Definition fault_frame (e : exn) : str :=
  match e with
  | ClientError msg => error_frame (lit "Connection error: " ++ msg)
  | OtherException msg => error_frame (lit "Unexpected error: " ++ msg)
  end.

(** A frame that carries [{"error": ...}]. *)
Definition is_error_frame (f : str) : Prop :=
  exists message, f = error_frame message.


(** SSE framing: a [data: ] line closed by a blank line. *)
Definition sse_framed (f : str) : Prop :=
  exists payload, f = lit "data: " ++ payload ++ NL ++ NL.

(** A character of [0-9a-f]. *)
Definition lower_hex (c : Z) : Prop := 48 <= c <= 57 \/ 97 <= c <= 102.

(** The place where an exchange fails in transport, and the lines the
    translator had taken from the body by then: when the connection is
    opened, when the body of an error answer is read, when the body of a
    buffered answer is read, or when the streamed body breaks off. *)
Inductive transport_fault (w : World) (rq : ClientRequest) (request_data : dict)
  : exn -> list bytes -> Prop :=
| fault_opening e :
    upstream w rq = inl e ->
    transport_fault w rq request_data e []
| fault_error_body response e :
    upstream w rq = inr response ->
    status response <> 200 ->
    text response = inl e ->
    transport_fault w rq request_data e []
| fault_buffered_body response e :
    upstream w rq = inr response ->
    status response = 200 ->
    wants_stream request_data = false ->
    json response = inl e ->
    transport_fault w rq request_data e []
| fault_streamed_body response e :
    upstream w rq = inr response ->
    status response = 200 ->
    wants_stream request_data = true ->
    content_end response = Some e ->
    transport_fault w rq request_data e (content response).

(** A token that is set: not empty and not the placeholder. *)
Definition token_configured (tok : str) : Prop :=
  tok <> [] /\ tok <> lit "YOUR_N8N_WEBHOOK_AUTH_TOKEN".

Definition with_token (settings : Settings) (tok : str) : Settings :=
  {| N8N_WEBHOOK_URL := N8N_WEBHOOK_URL settings;
     N8N_WEBHOOK_AUTH_TOKEN := tok;
     N8N_MODEL_NAME := N8N_MODEL_NAME settings;
     N8N_MODEL_DESCRIPTION := N8N_MODEL_DESCRIPTION settings |}.

(** Two request bodies that agree on every field but [user]. *)
Definition same_but_user (b1 b2 : N8NChatCompletionRequest) : Prop :=
  model b1 = model b2 /\ messages b1 = messages b2 /\ stream b1 = stream b2 /\
  temperature b1 = temperature b2 /\ max_tokens b1 = max_tokens b2 /\
  top_p b1 = top_p b2 /\ frequency_penalty b1 = frequency_penalty b2 /\
  presence_penalty b1 = presence_penalty b2.

(** The [user] object of the envelope. *)
Definition identity (user : UserModel) : JSON :=
  JDict [ (lit "id", JStr (user_id user));
          (lit "name", JStr (user_name user));
          (lit "email", JStr (user_email user));
          (lit "role", JStr (user_role user)) ].

(** *** The specification's wording, for comparison with the code *)

(** The frames of one decoded line when, as the specification says, only
    trailing whitespace is stripped. *)
Definition relay_text_spec (text : str) : list str :=
  let stripped := rstrip text in
  if startswith (lit "data: ") stripped then [stripped ++ NL ++ NL]
  else match stripped with
       | _ :: _ => [lit "data: " ++ stripped ++ NL ++ NL]
       | [] => []
       end.

(** The content of the synthesized message as the specification words it,
    for any parsed reply: its [content] field, else its [response] field,
    else the stringified whole reply. *)
Definition spec_content {rt : Builtins} (result : JSON) : JSON :=
  match result with
  | JDict d =>
    if dict_has d (lit "content") then dict_get d (lit "content") JNull
    else if dict_has d (lit "response") then dict_get d (lit "response") JNull
    else JStr (py_str result)
  | _ => JStr (py_str result)
  end.

(** The interpreter of the worked examples.  None of them reaches a point
    where the text of [str(result)] or of a decoding error shows. *)
Definition example_builtins : Builtins :=
  {| py_str := fun _ => lit "<str(result)>";
     decode_error_text := fun _ => lit "<UnicodeDecodeError>" |}.

(** The completion object the specification describes: the identifier
    ["chatcmpl-"] and a suffix, the fixed object type, the creation time,
    the model, one choice holding the assistant's message, and a usage
    record of zeros. *)
Definition completion_object (suffix : str) (created : Z) (model_name content : JSON) : JSON :=
  JDict [
    (lit "id", JStr (lit "chatcmpl-" ++ suffix));
    (lit "object", JStr (lit "chat.completion"));
    (lit "created", JInt created);
    (lit "model", model_name);
    (lit "choices", JList [
      JDict [
        (lit "index", JInt 0);
        (lit "message", JDict [
          (lit "role", JStr (lit "assistant"));
          (lit "content", content) ]);
        (lit "finish_reason", JStr (lit "stop")) ] ]);
    (lit "usage", JDict [
      (lit "prompt_tokens", JInt 0);
      (lit "completion_tokens", JInt 0);
      (lit "total_tokens", JInt 0) ]) ].

(** The test of line 182: no URL, or the placeholder. *)
Definition unconfigured (webhook_url : str) : bool :=
  str_eqb webhook_url [] || str_eqb webhook_url (lit "YOUR_N8N_WEBHOOK_URL").

(** *** The claims as the specification states them *)


(** C2 as stated: every buffered reply that passed the status test, of
    whatever JSON type, is answered by one completion frame and the
    sentinel. *)
Definition buffered_reply_claim {rt : Builtins} settings w url request_data tok : Prop :=
  forall response result,
    upstream w (outbound url request_data tok) = inr response ->
    status response = 200 ->
    wants_stream request_data = false ->
    json response = inr result ->
    exists suffix,
      length suffix = 8%nat /\ Forall lower_hex suffix /\
      frames (stream_n8n_response settings w url request_data tok) =
        [ sse (json_dumps
            (completion_object suffix (clock w)
               (dict_get request_data (lit "model") (JStr (N8N_MODEL_NAME settings)))
               (spec_content result)));
          DONE ].

(** C3 as stated: a line is relayed as its text stripped of trailing
    whitespace dictates. *)
Definition trailing_strip_claim {rt : Builtins} (line : bytes) : Prop :=
  forall text, utf8_decode line = Some text ->
    frames (relay_line line) = relay_text_spec text.

(** C5 as stated: every status from 200 to 299 leads to the relay or to the
    synthesized completion. *)
Definition any_2xx_claim {rt : Builtins} settings w url request_data tok : Prop :=
  forall response,
    upstream w (outbound url request_data tok) = inr response ->
    200 <= status response < 300 ->
    stream_n8n_response settings w url request_data tok =
    try_except (emit (Post (outbound url request_data tok)) ;;
                success_path settings w request_data response) on_exception.

(** C8 as stated: a configured token is in the [Authorization] header of
    every request and in no log record. *)
Definition token_never_logged_claim {rt : Builtins} settings w body user : Prop :=
  let tok := N8N_WEBHOOK_AUTH_TOKEN settings in
  let t := exchange (chat_completions settings w body user) in
  token_configured tok ->
  Forall (fun rq => req_headers rq !! lit "Authorization" = Some (lit "Bearer " ++ tok))
         (posted t) /\
  Forall (fun msg => contains tok msg = false) (logged t).


(** *** Worked examples *)

Definition example_settings : Settings :=
  {| N8N_WEBHOOK_URL := lit "http://n8n.local/webhook/chat";
     N8N_WEBHOOK_AUTH_TOKEN := lit "s3cr3t";
     N8N_MODEL_NAME := lit "n8n-agent";
     N8N_MODEL_DESCRIPTION := lit "n8n Webhook Agent for AI interactions" |}.

Definition example_user : UserModel :=
  {| user_id := lit "u-1"; user_name := lit "Ada";
     user_email := lit "ada@example.org"; user_role := lit "user" |}.

Definition example_body (streaming : bool) (tag : option str) : N8NChatCompletionRequest :=
  {| model := lit "n8n-agent";
     messages := [[(lit "role", JStr (lit "user")); (lit "content", JStr (lit "Hello"))]];
     stream := streaming;
     temperature := Some (Finite (lit "0.7"));
     max_tokens := Some 2048;
     top_p := Some (Finite (lit "1.0"));
     frequency_penalty := Some (Finite (lit "0.0"));
     presence_penalty := Some (Finite (lit "0.0"));
     user := tag |}.

(** A webhook that always gives the same answer. *)
Definition answering (response : ClientResponse) : World :=
  {| upstream := fun _ => inr response;
     urandom16 := [18; 52; 86; 120; 154; 188; 222; 240; 18; 52; 86; 120; 154; 188; 222; 240];
     clock := 1700000000 |}.

(** An answer with the given status whose body is [body] as text,
    [parsed] as JSON and [lines] line by line. *)
Definition answer (code : Z) (body : str) (parsed : JSON) (lines : list bytes) : ClientResponse :=
  {| status := code; text := inr body; json := inr parsed;
     content := lines; content_end := None |}.

Definition example_url : str := lit "http://n8n.local/webhook/chat".

Definition example_envelope (streaming : bool) : dict :=
  n8n_request (example_body streaming None) example_user.

(** An answer whose streamed body breaks off after [lines]. *)
Definition interrupted (lines : list bytes) (e : exn) : ClientResponse :=
  {| status := 200; text := inl e; json := inl e;
     content := lines; content_end := Some e |}.

Definition settings_without_token : Settings := with_token example_settings [].

(** The process environment in which [N8N_WEBHOOK_URL] is set to the empty string. *)
Definition environ_empty_url : gmap (list Z) (list Z) :=
  {[ lit "N8N_WEBHOOK_URL" := [] ]}.

(** A webhook that rejects every request with a 401 whose body repeats the
    [Authorization] header it was sent. *)
Definition echoing : World :=
  {| upstream := fun rq =>
       inr (answer 401 (default [] (req_headers rq !! lit "Authorization")) JNull []);
     urandom16 := [18; 52; 86; 120; 154; 188; 222; 240; 18; 52; 86; 120; 154; 188; 222; 240];
     clock := 1700000000 |}.

(** ** The other routes of [n8n_webhook.py] *)

Module N8nRoutes.

(** [str.title()], whose casing tables are the interpreter's. *)
Class Casing : Type := {
  py_title : str -> str
}.

(** [s.replace(old, new)] for a one-character [old]. *)
Definition replace_char (old : Z) (new : str) (s : str) : str :=
  concat (map (fun c => if c =? old then new else [c]) s).

(** [@router.get("/models")] *)
Definition get_models {cs : Casing} (settings : Settings) (w : World) : dict :=
  [ (lit "object", JStr (lit "list"));
    (lit "data", JList [
      JDict [
        (lit "id", JStr (N8N_MODEL_NAME settings));
        (lit "object", JStr (lit "model"));
        (lit "created", JInt (clock w));
        (lit "owned_by", JStr (lit "n8n"));
        (lit "permission", JList []);
        (lit "root", JStr (N8N_MODEL_NAME settings));
        (lit "parent", JNull);
        (lit "name", JStr (py_title (replace_char 45 (lit " ") (N8N_MODEL_NAME settings))));
        (lit "description", JStr (N8N_MODEL_DESCRIPTION settings))
      ]
    ]) ].

(** [@router.post("/embeddings")] *)
Definition create_embeddings (body : dict) (user : UserModel) : Handled dict :=
  ([LogInfo (lit "n8n embedding request from user: " ++ user_email user)],
   inr [ (lit "object", JStr (lit "list"));
         (lit "data", JList [
           JDict [
             (lit "object", JStr (lit "embedding"));
             (lit "embedding", JList (replicate 1536 (JFloat (Finite (lit "0.0")))));
             (lit "index", JInt 0)
           ]
         ]);
         (lit "model", JStr (lit "n8n-agent"));
         (lit "usage", JDict [
           (lit "prompt_tokens", JInt 0);
           (lit "total_tokens", JInt 0)
         ]) ]).

End N8nRoutes.

(** ** [setup_n8n.py]: the rewrite of the [.env] file *)

Module SetupN8n.

(** The answers [setup_n8n] has collected when it reaches step 5. *)
Record Answers : Type := {
  webhook_url : str;
  auth_token : str;
  model_name : str;
  timeout : str;
  max_retries : str;
  temperature : str;
  max_tokens : str;
  debug : str
}.

(** Lines 147-156: the [n8n_config] dictionary, in insertion order. *)
Definition n8n_config (a : Answers) : list (str * str) :=
  [ (lit "N8N_WEBHOOK_URL", webhook_url a);
    (lit "N8N_WEBHOOK_AUTH_TOKEN", auth_token a);
    (lit "N8N_MODEL_NAME", model_name a);
    (lit "N8N_TIMEOUT", timeout a);
    (lit "N8N_MAX_RETRIES", max_retries a);
    (lit "N8N_DEFAULT_TEMPERATURE", temperature a);
    (lit "N8N_DEFAULT_MAX_TOKENS", max_tokens a);
    (lit "N8N_DEBUG", debug a) ].

(** Line 159: [line.strip().startswith("N8N_")] *)
Definition is_n8n_line (line : str) : bool := startswith (lit "N8N_") (strip line).

(** Line 162: the comment that heads the block. *)
Definition block_header : str := NL ++ lit "# n8n Webhook Configuration" ++ NL.

(** Lines 163-165: one [KEY=value] line per setting with a non-empty value. *)
Fixpoint setting_lines (config : list (str * str)) : list str :=
  match config with
  | [] => []
  | (key, value) :: config' =>
    match value with
    | [] => setting_lines config'
    | _ :: _ => (key ++ lit "=" ++ value ++ NL) :: setting_lines config'
    end
  end.

(** Lines 158-165: the lines written back, from the lines read. *)
Definition update_env_lines (env_lines : list str) (a : Answers) : list str :=
  List.filter (fun line => negb (is_n8n_line line)) env_lines ++
  [block_header] ++ setting_lines (n8n_config a).

End SetupN8n.


(** ** The vocabulary of the further properties *)

Import N8nRoutes.

(** A printable ASCII character, [' '..'~']. *)
Definition printable (c : Z) : Prop := 32 <= c <= 126.

(** A JSON value all of whose finite floats print as printable ASCII, as
    every [repr()] of a Python float does. *)
Fixpoint ascii_floats (v : JSON) : Prop :=
  match v with
  | JFloat (Finite r) => Forall printable r
  | JList l =>
    (fix all (l : list JSON) : Prop :=
       match l with
       | [] => True
       | x :: l' => ascii_floats x /\ all l'
       end) l
  | JDict d =>
    (fix all (d : list (str * JSON)) : Prop :=
       match d with
       | [] => True
       | (_, x) :: d' => ascii_floats x /\ all d'
       end) d
  | _ => True
  end.

(** A Unicode scalar value: a code point that UTF-8 can encode. *)
Definition scalar (c : Z) : Prop := 0 <= c < 55296 \/ 57344 <= c <= 1114111.

(** A text that [strip()] leaves alone, and that is not empty. *)
Definition tight (d : str) : Prop :=
  exists c m, d = c :: m /\ isspace c = false /\ rstrip d = d.

(** The ids of the models a [/models] answer lists. *)
Definition listed_ids (answer : dict) : list JSON :=
  match dict_get answer (lit "data") JNull with
  | JList models =>
    map (fun m => match m with
                  | JDict d => dict_get d (lit "id") JNull
                  | _ => JNull
                  end) models
  | _ => []
  end.

(** A process environment with the URL and the token set. *)
Definition example_environ : gmap (list Z) (list Z) :=
  {[ lit "N8N_WEBHOOK_URL" := example_url;
     lit "N8N_WEBHOOK_AUTH_TOKEN" := lit "s3cr3t" ]}.

(** The reply of the configuration notes: an object with a [content]. *)
Definition example_reply : list (str * JSON) := [(lit "content", JStr (lit "hi"))].

(** A streamed body of three lines: a framed one, a blank one, a bare one. *)
Definition example_lines : list bytes :=
  [lit "data: one" ++ NL; NL; lit "two" ++ NL].

(** The same body with an octet that is not UTF-8 in the second place. *)
Definition example_broken_lines : list bytes :=
  [lit "data: one" ++ NL; [255]; lit "two" ++ NL].



(** ** The vocabulary of the exact frames *)

(** A character [json.dumps] writes as it is: printable ASCII other than the
    double quote and the backslash. *)
Definition plain (c : Z) : Prop := 32 <= c <= 126 /\ c <> 34 /\ c <> 92.

(** [s] between double quotes. *)
Definition quoted (s : str) : str := [34] ++ s ++ [34].

(** A character that does not end a line. *)
Definition no_break (c : Z) : Prop := c <> 10 /\ c <> 13.

(** A chunk that is exactly one SSE event: a [data: ] line with no line
    break inside, and the blank line. *)
Definition one_event (f : str) : Prop :=
  exists payload, f = lit "data: " ++ payload ++ NL ++ NL /\ Forall no_break payload.

(** The text of the frame [data: {"error": <message>}] with the message as
    [json.dumps] writes it. *)
Definition error_chunk (dumped_message : str) : str :=
  lit "data: {" ++ quoted (lit "error") ++ lit ": " ++ dumped_message ++ lit "}" ++ NL ++ NL.

(** The message of the handlers of lines 138-143. *)
Definition fault_message (e : exn) : str :=
  match e with
  | ClientError cause => lit "Connection error: " ++ cause
  | OtherException cause => lit "Unexpected error: " ++ cause
  end.

(** The text of the completion frame, written out: the object of lines
    116-134 with [json.dumps]'s separators, around the dumped model and the
    dumped content. *)
Definition completion_chunk (suffix : str) (created : Z) (dumped_model dumped_content : str) : str :=
  lit "data: {" ++
  quoted (lit "id") ++ lit ": " ++ quoted (lit "chatcmpl-" ++ suffix) ++ lit ", " ++
  quoted (lit "object") ++ lit ": " ++ quoted (lit "chat.completion") ++ lit ", " ++
  quoted (lit "created") ++ lit ": " ++ int_to_str created ++ lit ", " ++
  quoted (lit "model") ++ lit ": " ++ dumped_model ++ lit ", " ++
  quoted (lit "choices") ++ lit ": [{" ++
    quoted (lit "index") ++ lit ": 0, " ++
    quoted (lit "message") ++ lit ": {" ++
      quoted (lit "role") ++ lit ": " ++ quoted (lit "assistant") ++ lit ", " ++
      quoted (lit "content") ++ lit ": " ++ dumped_content ++
    lit "}, " ++
    quoted (lit "finish_reason") ++ lit ": " ++ quoted (lit "stop") ++
  lit "}], " ++
  quoted (lit "usage") ++ lit ": {" ++
    quoted (lit "prompt_tokens") ++ lit ": 0, " ++
    quoted (lit "completion_tokens") ++ lit ": 0, " ++
    quoted (lit "total_tokens") ++ lit ": 0" ++
  lit "}}" ++ NL ++ NL.

(** C4 as stated: every answer with a status outside 200..299 is reported
    by the one frame that carries its body. *)
Definition http_error_claim {rt : Builtins} settings w url request_data tok : Prop :=
  forall response,
    upstream w (outbound url request_data tok) = inr response ->
    ~ (200 <= status response < 300) ->
    exists body,
      frames (stream_n8n_response settings w url request_data tok) =
      [error_frame (lit "n8n webhook error: " ++ body)].

(** An answer whose body cannot be read: [response.text()],
    [response.json()] and the body iterator all raise [e]. *)
Definition unreadable (code : Z) (e : exn) : ClientResponse :=
  {| status := code; text := inl e; json := inl e; content := []; content_end := Some e |}.

(** Conversions for the worked examples, defined on plain decimal texts
    only: digits for [int], digits around at most one point for [float];
    [lower] on the ASCII letters. *)
Definition is_digit (c : Z) : bool := (48 <=? c) && (c <=? 57).

Definition example_int (s : str) : option Z :=
  match s with
  | [] => None
  | _ :: _ =>
    fold_left (fun acc c =>
                 match acc with
                 | Some n => if is_digit c then Some (10 * n + (c - 48)) else None
                 | None => None
                 end) s (Some 0)
  end.

Definition example_float (s : str) : option pyfloat :=
  if forallb (fun c => is_digit c || (c =? 46)) s
     && existsb is_digit s
     && (length (filter (fun c : Z => c = 46%Z) s) <=? 1)%nat
  then Some (Finite s) else None.

Definition example_conversions : Conversions :=
  {| py_int := example_int;
     py_float := example_float;
     py_lower := map (fun c => if (65 <=? c) && (c <=? 90) then c + 32 else c) |}.

(** An environment whose [N8N_TIMEOUT] is no number. *)
Definition environ_bad_timeout : gmap (list Z) (list Z) :=
  {[ lit "N8N_WEBHOOK_URL" := example_url;
     lit "N8N_TIMEOUT" := lit "abc" ]}.

(** * Properties *)

(** ** The generator monad is a monad *)

Lemma bind_ret_l {A B : Type} (a : A) (k : A -> Gen B) : bind (ret a) k = k a.
Proof. unfold bind, ret. destruct (k a). reflexivity. Qed.

Lemma bind_ret_r {A : Type} (m : Gen A) : bind m ret = m.
Proof. destruct m as [t [e|a]]; simpl; [|rewrite app_nil_r]; reflexivity. Qed.

Lemma bind_assoc {A B C : Type} (m : Gen A) (k : A -> Gen B) (k' : B -> Gen C) :
  bind (bind m k) k' = bind m (fun a => bind (k a) k').
Proof.
  destruct m as [t [e|a]]; simpl; [reflexivity|].
  destruct (k a) as [t1 [e|b]]; simpl; [reflexivity|].
  destruct (k' b) as [t2 r]. rewrite app_assoc. reflexivity.
Qed.

(** ** Traces *)

Lemma yielded_app (a b : list event) : yielded (a ++ b) = yielded a ++ yielded b.
Proof. induction a as [|[] a IH]; simpl; congruence. Qed.

Lemma logged_app (a b : list event) : logged (a ++ b) = logged a ++ logged b.
Proof. induction a as [|[] a IH]; simpl; congruence. Qed.

Lemma posted_app (a b : list event) : posted (a ++ b) = posted a ++ posted b.
Proof. induction a as [|[] a IH]; simpl; congruence. Qed.

Lemma on_exception_eq (e : exn) :
  on_exception e = ([LogError (fault_log e); Yield (fault_frame e)], inr tt).
Proof. destruct e; reflexivity. Qed.

Lemma guarded_eq (body : Gen unit) :
  try_except body on_exception =
  match body with
  | (t, inl e) => (t ++ [LogError (fault_log e); Yield (fault_frame e)], inr tt)
  | (t, inr a) => (t, inr a)
  end.
Proof.
  destruct body as [t [e|a]]; simpl; [|reflexivity].
  rewrite on_exception_eq. reflexivity.
Qed.

Section Runs.
Context {rt : Builtins}.

Lemma stream_n8n_response_eq settings w url request_data tok :
  stream_n8n_response settings w url request_data tok =
  try_except (session_post w (outbound url request_data tok) ≫=
              dispatch settings w request_data) on_exception.
Proof. reflexivity. Qed.

Lemma run_refused settings w url request_data tok e :
  upstream w (outbound url request_data tok) = inl e ->
  stream_n8n_response settings w url request_data tok =
  ([Post (outbound url request_data tok); LogError (fault_log e); Yield (fault_frame e)],
   inr tt).
Proof.
  intros Hup. rewrite stream_n8n_response_eq, guarded_eq.
  unfold session_post, mbind, gen_bind, bind, emit, await. simpl.
  rewrite Hup. reflexivity.
Qed.

Lemma run_answered settings w url request_data tok response :
  upstream w (outbound url request_data tok) = inr response ->
  stream_n8n_response settings w url request_data tok =
  let r := try_except (dispatch settings w request_data response) on_exception in
  (Post (outbound url request_data tok) :: fst r, snd r).
Proof.
  intros Hup. rewrite stream_n8n_response_eq. rewrite !guarded_eq.
  unfold session_post, mbind, gen_bind, bind, emit, await. simpl.
  rewrite Hup. destruct (dispatch settings w request_data response) as [t [e|[]]]; reflexivity.
Qed.

End Runs.

(** Replace a run by its trace, once the webhook's answer [Hup] is known. *)
Ltac run_with Hup :=
  first [ rewrite (run_refused _ _ _ _ _ _ Hup)
        | rewrite (run_answered _ _ _ _ _ _ Hup), guarded_eq; unfold dispatch ].

Lemma startswith_split (p s : str) :
  startswith p s = true -> exists rest, s = p ++ rest.
Proof.
  revert s. induction p as [|c p IH]; intros s Hs.
  - exists s. reflexivity.
  - destruct s as [|c' s]; [discriminate|]. simpl in Hs.
    apply andb_prop in Hs as [Hc Hp]. apply Z.eqb_eq in Hc. subst c'.
    destruct (IH _ Hp) as [rest ->]. exists rest. reflexivity.
Qed.

Lemma error_frame_not_DONE (message : str) : error_frame message <> DONE.
Proof. unfold error_frame, sse, DONE. simpl. discriminate. Qed.

Lemma fault_frame_is_error_frame (e : exn) : is_error_frame (fault_frame e).
Proof. destruct e; eexists; reflexivity. Qed.

Lemma fault_frame_not_DONE (e : exn) : fault_frame e <> DONE.
Proof. destruct e; apply error_frame_not_DONE. Qed.

Lemma sse_is_framed (payload : str) : sse_framed (sse payload).
Proof. exists payload. reflexivity. Qed.

Lemma fault_frame_framed (e : exn) : sse_framed (fault_frame e).
Proof. destruct e; apply sse_is_framed. Qed.

Lemma DONE_framed : sse_framed DONE.
Proof. exists (lit "[DONE]"). reflexivity. Qed.


Lemma report_http_error_eq (response : ClientResponse) :
  report_http_error response =
  match text response with
  | inl e => ([], inl e)
  | inr body =>
    ([LogError (lit "n8n webhook error: " ++ int_to_str (status response) ++
                lit " - " ++ body);
      Yield (error_frame (lit "n8n webhook error: " ++ body))], inr tt)
  end.
Proof. unfold report_http_error. destruct (text response); reflexivity. Qed.

Section Branches.
Context {rt : Builtins}.

Lemma synthesize_completion_eq settings w request_data response :
  synthesize_completion settings w request_data response =
  match json response with
  | inl e => ([], inl e)
  | inr (JDict d) =>
    ([Yield (sse (json_dumps
        (formatted_response
           (dict_get request_data (lit "model") (JStr (N8N_MODEL_NAME settings))) w
           (dict_get d (lit "content")
              (dict_get d (lit "response") (JStr (py_str (JDict d))))))));
      Yield DONE], inr tt)
  | inr result =>
    ([], inl (OtherException
                (lit "'" ++ type_name result ++ lit "' object has no attribute 'get'")))
  end.
Proof.
  unfold synthesize_completion. destruct (json response) as [e|[]]; reflexivity.
Qed.

Lemma relay_line_eq (line : bytes) :
  relay_line line =
  match utf8_decode line with
  | None => ([], inl (OtherException (decode_error_text line)))
  | Some text =>
    if startswith (lit "data: ") (strip text) then ([Yield (strip text ++ NL ++ NL)], inr tt)
    else match strip text with
         | _ :: _ => ([Yield (sse (strip text))], inr tt)
         | [] => ([], inr tt)
         end
  end.
Proof.
  destruct line as [|b line]; [reflexivity|].
  unfold relay_line. destruct (utf8_decode (b :: line)) as [text|]; [|reflexivity].
  cbn [mbind gen_bind bind mret gen_ret ret].
  destruct (startswith (lit "data: ") (strip text)); [reflexivity|].
  destruct (strip text); reflexivity.
Qed.

Lemma relay_line_framed (line : bytes) :
  Forall sse_framed (frames (relay_line line)).
Proof.
  rewrite relay_line_eq. destruct (utf8_decode line) as [text|]; [|constructor].
  destruct (startswith (lit "data: ") (strip text)) eqn:Hp.
  - apply startswith_split in Hp as [rest Hrest].
    repeat constructor. exists rest. rewrite Hrest, <- !app_assoc. reflexivity.
  - destruct (strip text) eqn:Hs; repeat constructor. apply sse_is_framed.
Qed.

Lemma for_each_framed (lines : list bytes) :
  Forall sse_framed (frames (for_each lines relay_line)).
Proof.
  induction lines as [|line lines IH]; [constructor|].
  pose proof (relay_line_framed line) as Hl.
  unfold frames in *. simpl.
  destruct (relay_line line) as [t [e|[]]]; simpl in *; [exact Hl|].
  destruct (for_each lines relay_line) as [t' r]. simpl in *.
  rewrite yielded_app. apply Forall_app. split; assumption.
Qed.

(** The frames of a relay that meets no exception are those of its lines,
    in order. *)
Lemma for_each_frames (lines : list bytes) :
  snd (for_each lines relay_line) = inr tt ->
  frames (for_each lines relay_line) =
  concat (map (fun line => frames (relay_line line)) lines).
Proof.
  induction lines as [|line lines IH]; [reflexivity|].
  unfold frames in *. simpl.
  destruct (relay_line line) as [t [e|[]]]; simpl; [discriminate|].
  destruct (for_each lines relay_line) as [t' r]. simpl in *.
  intros ->. rewrite yielded_app, IH by reflexivity. reflexivity.
Qed.

Lemma relay_stream_eq (response : ClientResponse) :
  relay_stream response =
  match for_each (content response) relay_line, content_end response with
  | (t, inl e), _ => (t, inl e)
  | (t, inr _), Some e => (t, inl e)
  | (t, inr _), None => (t, inr tt)
  end.
Proof.
  unfold relay_stream. cbn [mbind gen_bind bind].
  destruct (for_each (content response) relay_line) as [t [e|[]]]; [reflexivity|].
  destruct (content_end response); simpl; rewrite app_nil_r; reflexivity.
Qed.

End Branches.

Lemma hex_digit_lower (d : Z) : 0 <= d <= 15 -> lower_hex (hex_digit d).
Proof.
  intros Hd. unfold lower_hex, hex_digit.
  destruct (Z.ltb_spec d 10); lia.
Qed.

Lemma nibble_range (n : Z) : 0 <= Z.land n 15 <= 15.
Proof.
  change 15 with (Z.ones 4) at 1 2. rewrite Z.land_ones by lia.
  pose proof (Z.mod_pos_bound n (2 ^ 4) ltac:(lia)). lia.
Qed.

Lemma hex_fixed_length (k : nat) (n : Z) : length (hex_fixed k n) = k.
Proof. induction k as [|k IH]; simpl; congruence. Qed.

Lemma hex_fixed_lower (k : nat) (n : Z) : Forall lower_hex (hex_fixed k n).
Proof.
  induction k as [|k IH]; simpl; constructor; [|exact IH].
  apply hex_digit_lower, nibble_range.
Qed.

Lemma uuid4_hex_prefix (b : bytes) :
  length (take 8 (uuid4_hex b)) = 8%nat /\ Forall lower_hex (take 8 (uuid4_hex b)).
Proof.
  unfold uuid4_hex. split.
  - rewrite length_take, hex_fixed_length. reflexivity.
  - apply Forall_take, hex_fixed_lower.
Qed.

Lemma dict_get_has (d : dict) (key : str) (default : JSON) :
  dict_get d key default = if dict_has d key then dict_get d key JNull else default.
Proof.
  induction d as [|[k v] d IH]; simpl; [reflexivity|].
  destruct (str_eqb k key); simpl; [reflexivity|exact IH].
Qed.


Lemma posted_relay_line {rt : Builtins} (line : bytes) : posted (trace (relay_line line)) = [].
Proof.
  rewrite relay_line_eq. destruct (utf8_decode line) as [text|]; [|reflexivity].
  destruct (startswith (lit "data: ") (strip text)); [reflexivity|].
  destruct (strip text); reflexivity.
Qed.

Lemma posted_for_each {rt : Builtins} (lines : list bytes) :
  posted (trace (for_each lines relay_line)) = [].
Proof.
  induction lines as [|line lines IH]; [reflexivity|].
  pose proof (posted_relay_line line) as Hl. simpl.
  destruct (relay_line line) as [t [e|[]]]; simpl in *; [exact Hl|].
  destruct (for_each lines relay_line) as [t' r]. simpl in *.
  rewrite posted_app, Hl, IH. reflexivity.
Qed.

Lemma posted_dispatch {rt : Builtins} settings w request_data response :
  posted (trace (try_except (dispatch settings w request_data response) on_exception)) = [].
Proof.
  rewrite guarded_eq. unfold dispatch.
  destruct (negb (status response =? 200)).
  { rewrite report_http_error_eq. destruct (text response); reflexivity. }
  destruct (wants_stream request_data).
  - rewrite relay_stream_eq. pose proof (posted_for_each (content response)) as Hp.
    destruct (for_each (content response) relay_line) as [t [e|[]]]; simpl in *.
    + rewrite posted_app, Hp. reflexivity.
    + destruct (content_end response); simpl; [|exact Hp].
      rewrite posted_app, Hp. reflexivity.
  - rewrite synthesize_completion_eq.
    destruct (json response) as [e|[]]; reflexivity.
Qed.

Lemma posted_stream {rt : Builtins} settings w url request_data tok :
  posted (trace (stream_n8n_response settings w url request_data tok)) =
  [outbound url request_data tok].
Proof.
  destruct (upstream w (outbound url request_data tok)) as [e|response] eqn:Hup.
  - rewrite (run_refused _ _ _ _ _ _ Hup). reflexivity.
  - rewrite (run_answered _ _ _ _ _ _ Hup). cbn [trace fst posted].
    f_equal. apply posted_dispatch.
Qed.

Lemma posted_exchange {rt : Builtins} settings w body user :
  posted (exchange (chat_completions settings w body user)) =
  if unconfigured (N8N_WEBHOOK_URL settings) then []
  else [outbound (N8N_WEBHOOK_URL settings) (n8n_request body user) (auth_token_arg settings)].
Proof.
  unfold chat_completions, unconfigured, exchange.
  destruct (str_eqb (N8N_WEBHOOK_URL settings) [] ||
            str_eqb (N8N_WEBHOOK_URL settings) (lit "YOUR_N8N_WEBHOOK_URL")); [reflexivity|].
  cbn [fst snd body_iterator app posted]. apply posted_stream.
Qed.

Lemma logged_stream {rt : Builtins} settings w url request_data tok :
  logged (trace (stream_n8n_response settings w url request_data tok)) =
  logged (trace (try_except (await (upstream w (outbound url request_data tok)) ≫=
                             dispatch settings w request_data) on_exception)).
Proof.
  rewrite stream_n8n_response_eq, !guarded_eq.
  unfold session_post. cbn [mbind gen_bind bind emit await].
  destruct (upstream w (outbound url request_data tok)) as [e|response]; [reflexivity|].
  destruct (dispatch settings w request_data response) as [t [e|[]]]; reflexivity.
Qed.

Lemma str_eqb_true (a b : str) : str_eqb a b = true <-> a = b.
Proof. unfold str_eqb. apply bool_decide_eq_true. Qed.

Lemma str_eqb_false (a b : str) : str_eqb a b = false <-> a <> b.
Proof. unfold str_eqb. apply bool_decide_eq_false. Qed.

Lemma auth_token_arg_configured settings :
  token_configured (N8N_WEBHOOK_AUTH_TOKEN settings) ->
  request_headers (auth_token_arg settings) !! lit "Authorization" =
  Some (lit "Bearer " ++ N8N_WEBHOOK_AUTH_TOKEN settings).
Proof.
  intros [Hne Hph]. unfold auth_token_arg.
  apply str_eqb_false in Hph. rewrite Hph.
  destruct (N8N_WEBHOOK_AUTH_TOKEN settings) as [|c tok]; [contradiction|].
  unfold request_headers. apply lookup_insert_eq.
Qed.

Lemma no_token_no_header (auth_token : option str) :
  auth_token = None \/ auth_token = Some [] ->
  request_headers auth_token !! lit "Authorization" = None.
Proof.
  intros [-> | ->]; unfold request_headers; apply lookup_singleton_ne; discriminate.
Qed.


(** ** Configuration *)

Lemma unset_url_is_placeholder (environ : gmap (list Z) (list Z)) :
  environ !! lit "N8N_WEBHOOK_URL" = None ->
  N8N_WEBHOOK_URL (from_environ environ) = lit "YOUR_N8N_WEBHOOK_URL".
Proof.
  intros Hunset. unfold from_environ, getenv. cbn [N8N_WEBHOOK_URL].
  unfold str in *. rewrite Hunset. reflexivity.
Qed.

Lemma placeholder_url_not_configured settings :
  N8N_WEBHOOK_URL settings = lit "YOUR_N8N_WEBHOOK_URL" ->
  dict_get (get_status settings) (lit "configured") JNull = JBool false /\
  dict_get (get_status settings) (lit "status") JNull = JStr (lit "not_configured").
Proof. intros Hurl. unfold get_status. rewrite Hurl. split; reflexivity. Qed.

Lemma unconfigured_url_refused {rt : Builtins} settings w body user :
  unconfigured (N8N_WEBHOOK_URL settings) = true ->
  snd (chat_completions settings w body user) =
    inl {| status_code := 500;
           detail := lit "n8n webhook URL not configured. Please set the N8N_WEBHOOK_URL." |} /\
  posted (exchange (chat_completions settings w body user)) = [].
Proof.
  intros Hun. rewrite posted_exchange, Hun. split; [|reflexivity].
  unfold chat_completions. unfold unconfigured in Hun. rewrite Hun. reflexivity.
Qed.

(** ** The translator and the router *)

Section Claims.
Context {rt : Builtins}.

(** C3, amended.  For a line that decodes as UTF-8, with [stripped] its text
    without leading and trailing whitespace: if [stripped] starts with
    ["data: "] the line is relayed as [stripped] and a blank line; otherwise,
    if [stripped] is not empty, as ["data: " + stripped] and a blank line;
    and if [stripped] is empty nothing is yielded. *)
Theorem relay_line_cases (line : bytes) (text : str) :
  utf8_decode line = Some text ->
  let stripped := strip text in
  (startswith (lit "data: ") stripped = true ->
   relay_line line = ([Yield (stripped ++ NL ++ NL)], inr tt)) /\
  (startswith (lit "data: ") stripped = false -> stripped <> [] ->
   relay_line line = ([Yield (lit "data: " ++ stripped ++ NL ++ NL)], inr tt)) /\
  (stripped = [] -> relay_line line = ([], inr tt)).
Proof.
  intros Hdec stripped. subst stripped. rewrite relay_line_eq, Hdec.
  repeat split.
  - intros ->. reflexivity.
  - intros -> Hne. destruct (strip text); [contradiction|reflexivity].
  - intros ->. reflexivity.
Qed.

(** C5, amended.  A response with status exactly 200 takes the success
    path -- the relay when the envelope's stream flag is true, the
    synthesized completion when it is false; a response with any other
    status, the other 2xx codes included, takes the error-frame path. *)
Theorem status_200_selects_success_path settings w url request_data tok response :
  upstream w (outbound url request_data tok) = inr response ->
  let run := stream_n8n_response settings w url request_data tok in
  let rq := outbound url request_data tok in
  (status response = 200 ->
   run = try_except (emit (Post rq) ;; success_path settings w request_data response)
                    on_exception) /\
  (status response <> 200 ->
   run = try_except (emit (Post rq) ;; report_http_error response) on_exception).
Proof.
  intros Hup run rq. subst run rq. rewrite stream_n8n_response_eq.
  unfold session_post. cbn [mbind gen_bind bind emit await]. rewrite Hup.
  unfold dispatch, success_path. split; intros Hst.
  - rewrite Hst. reflexivity.
  - destruct (Z.eqb_spec (status response) 200) as [E|_]; [contradiction|]. reflexivity.
Qed.

(** C8, amended.  With a configured token, every request the route sends
    has the header [Authorization: Bearer <token>] with exactly that token,
    and the log does not depend on the token: under any other token value,
    if the webhook answers the two requests alike, the same records are
    logged. *)
Theorem token_sent_as_bearer_and_kept_from_log settings w body user :
  let tok := N8N_WEBHOOK_AUTH_TOKEN settings in
  let url := N8N_WEBHOOK_URL settings in
  token_configured tok ->
  Forall (fun rq => req_headers rq !! lit "Authorization" = Some (lit "Bearer " ++ tok))
         (posted (exchange (chat_completions settings w body user))) /\
  forall tok',
    upstream w (outbound url (n8n_request body user) (auth_token_arg (with_token settings tok'))) =
    upstream w (outbound url (n8n_request body user) (auth_token_arg settings)) ->
    logged (exchange (chat_completions (with_token settings tok') w body user)) =
    logged (exchange (chat_completions settings w body user)).
Proof.
  intros tok url Hconf. subst tok url. split.
  - rewrite posted_exchange. destruct (unconfigured (N8N_WEBHOOK_URL settings)); [constructor|].
    repeat constructor. apply auth_token_arg_configured, Hconf.
  - intros tok' Hsame. unfold chat_completions, exchange.
    change (N8N_WEBHOOK_URL (with_token settings tok')) with (N8N_WEBHOOK_URL settings).
    destruct (str_eqb (N8N_WEBHOOK_URL settings) [] ||
              str_eqb (N8N_WEBHOOK_URL settings) (lit "YOUR_N8N_WEBHOOK_URL")); [reflexivity|].
    cbn [fst snd body_iterator]. rewrite !logged_app. f_equal.
    rewrite !logged_stream, Hsame. reflexivity.
Qed.

(** C10.  When the configured token is the empty string or the placeholder
    ["YOUR_N8N_WEBHOOK_AUTH_TOKEN"], no request has an [Authorization]
    header: neither the one the chat-completion route sends, nor one the
    translator sends when handed that token for any URL and envelope. *)
Theorem no_authorization_header_without_token settings w body user :
  N8N_WEBHOOK_AUTH_TOKEN settings = [] \/
  N8N_WEBHOOK_AUTH_TOKEN settings = lit "YOUR_N8N_WEBHOOK_AUTH_TOKEN" ->
  Forall (fun rq => req_headers rq !! lit "Authorization" = None)
         (posted (exchange (chat_completions settings w body user))) /\
  (forall url request_data,
     Forall (fun rq => req_headers rq !! lit "Authorization" = None)
            (posted (trace (stream_n8n_response settings w url request_data
                              (auth_token_arg settings))))).
Proof.
  intros Htok.
  assert (Hnone : request_headers (auth_token_arg settings) !! lit "Authorization" = None).
  { apply no_token_no_header. unfold auth_token_arg.
    destruct Htok as [E|E]; rewrite E; [right|left]; reflexivity. }
  split.
  - rewrite posted_exchange. destruct (unconfigured (N8N_WEBHOOK_URL settings)); [constructor|].
    repeat constructor. exact Hnone.
  - intros url request_data. rewrite posted_stream. repeat constructor. exact Hnone.
Qed.

(** C9.  Two request bodies that differ at most in their [user] field give
    the same envelope, the same outbound requests and the same response,
    and the [user] key of every envelope sent holds the verified caller's
    [{id, name, email, role}]. *)
Theorem body_user_not_forwarded settings w body1 body2 caller :
  same_but_user body1 body2 ->
  n8n_request body1 caller = n8n_request body2 caller /\
  posted (exchange (chat_completions settings w body1 caller)) =
  posted (exchange (chat_completions settings w body2 caller)) /\
  chat_completions settings w body1 caller = chat_completions settings w body2 caller /\
  Forall (fun rq => dict_get (req_json rq) (lit "user") JNull = identity caller)
         (posted (exchange (chat_completions settings w body1 caller))).
Proof.
  intros (Hmodel & Hmsgs & Hstream & Htemp & Hmax & Htop & Hfreq & Hpres).
  assert (Henv : n8n_request body1 caller = n8n_request body2 caller).
  { unfold n8n_request. rewrite Hmodel, Hmsgs, Hstream, Htemp, Hmax, Htop, Hfreq, Hpres.
    reflexivity. }
  split; [exact Henv|]. rewrite !posted_exchange, Henv. split; [reflexivity|].
  split; [unfold chat_completions; rewrite Henv; reflexivity|].
  destruct (unconfigured (N8N_WEBHOOK_URL settings)); [constructor|].
  repeat constructor.
Qed.

End Claims.

(** C6, at the failing input.  With [N8N_WEBHOOK_URL] set to the empty
    string the status route reports [configured: true] and [status: "ready"],
    while the chat-completion route, which tests for the empty URL as well,
    raises HTTP 500 without sending a request. *)
Theorem empty_url_reported_ready :
  let settings := from_environ environ_empty_url in
  N8N_WEBHOOK_URL settings = [] /\
  dict_get (get_status settings) (lit "configured") JNull = JBool true /\
  dict_get (get_status settings) (lit "status") JNull = JStr (lit "ready") /\
  forall (rt : Builtins) w body user,
    snd (chat_completions settings w body user) =
      inl {| status_code := 500;
             detail := lit "n8n webhook URL not configured. Please set the N8N_WEBHOOK_URL." |} /\
    posted (exchange (chat_completions settings w body user)) = [].
Proof.
  cbv zeta. repeat split; vm_compute; reflexivity.
Qed.

(** ** Instances *)

(** C3 at the line [data: [DONE]]: relayed as it is. *)
Lemma relay_line_cases_witness :
  relay_line (rt := example_builtins) (lit "data: [DONE]" ++ NL) =
  ([Yield (lit "data: [DONE]" ++ NL ++ NL)], inr tt).
Proof.
  apply (proj1 (relay_line_cases (rt := example_builtins)
                  (lit "data: [DONE]" ++ NL) (lit "data: [DONE]" ++ NL) eq_refl)).
  reflexivity.
Defined.

(** C5 at a buffered answer with status 200. *)
Lemma status_200_selects_success_path_witness :
  stream_n8n_response (rt := example_builtins) example_settings
    (answering (answer 200 [] (JDict [(lit "content", JStr (lit "hi"))]) []))
    example_url (example_envelope false) (Some (lit "s3cr3t")) =
  try_except
    (emit (Post (outbound example_url (example_envelope false) (Some (lit "s3cr3t")))) ;;
     success_path (rt := example_builtins) example_settings
       (answering (answer 200 [] (JDict [(lit "content", JStr (lit "hi"))]) []))
       (example_envelope false)
       (answer 200 [] (JDict [(lit "content", JStr (lit "hi"))]) []))
    on_exception.
Proof.
  apply (proj1 (status_200_selects_success_path (rt := example_builtins) example_settings
                  (answering (answer 200 [] (JDict [(lit "content", JStr (lit "hi"))]) []))
                  example_url (example_envelope false) (Some (lit "s3cr3t"))
                  (answer 200 [] (JDict [(lit "content", JStr (lit "hi"))]) []) eq_refl)).
  reflexivity.
Defined.

(** C8 at the token [s3cr3t] and a webhook that answers 401: the header
    carries the token, and the two records logged are the ones logged under
    the token [0ther]. *)
Lemma token_sent_as_bearer_and_kept_from_log_witness :
  Forall (fun rq => req_headers rq !! lit "Authorization" = Some (lit "Bearer s3cr3t"))
         (posted (exchange (chat_completions (rt := example_builtins) example_settings
                              (answering (answer 401 (lit "denied") JNull []))
                              (example_body false None) example_user))) /\
  logged (exchange (chat_completions (rt := example_builtins)
                      (with_token example_settings (lit "0ther"))
                      (answering (answer 401 (lit "denied") JNull []))
                      (example_body false None) example_user)) =
  [ lit "n8n chat completion request from user: ada@example.org";
    lit "n8n webhook error: 401 - denied" ].
Proof.
  assert (Hconf : token_configured (N8N_WEBHOOK_AUTH_TOKEN example_settings))
    by (split; intros E; vm_compute in E; discriminate).
  destruct (token_sent_as_bearer_and_kept_from_log (rt := example_builtins)
              example_settings (answering (answer 401 (lit "denied") JNull []))
              (example_body false None) example_user Hconf) as [Hheader Hlog].
  split; [exact Hheader|].
  rewrite (Hlog (lit "0ther") eq_refl). vm_compute. reflexivity.
Defined.

(** C10 at the empty token. *)
Lemma no_authorization_header_without_token_witness :
  Forall (fun rq => req_headers rq !! lit "Authorization" = None)
         (posted (exchange (chat_completions (rt := example_builtins) settings_without_token
                              (answering (answer 200 [] (JDict []) []))
                              (example_body false None) example_user))).
Proof.
  apply (proj1 (no_authorization_header_without_token (rt := example_builtins)
                  settings_without_token (answering (answer 200 [] (JDict []) []))
                  (example_body false None) example_user (or_introl eq_refl))).
Defined.

(** C9 at two bodies, one without a [user], one naming [root]. *)
Lemma body_user_not_forwarded_witness :
  posted (exchange (chat_completions (rt := example_builtins) example_settings
                      (answering (answer 200 [] (JDict []) []))
                      (example_body false None) example_user)) =
  posted (exchange (chat_completions (rt := example_builtins) example_settings
                      (answering (answer 200 [] (JDict []) []))
                      (example_body false (Some (lit "root"))) example_user)).
Proof.
  apply (proj1 (proj2 (body_user_not_forwarded (rt := example_builtins) example_settings
                  (answering (answer 200 [] (JDict []) []))
                  (example_body false None) (example_body false (Some (lit "root")))
                  example_user
                  ltac:(repeat split)))).
Defined.

(** ** Where the specification and the code part *)


(** C2 fails: a webhook answers 200 with the JSON array [["hi"]]; the
    translator yields a single error frame, not a completion and [DONE]. *)
Lemma array_reply_gets_error_frame :
  ~ buffered_reply_claim (rt := example_builtins) example_settings
      (answering (answer 200 [] (JList [JStr (lit "hi")]) []))
      example_url (example_envelope false) (Some (lit "s3cr3t")).
Proof.
  intros Hclaim.
  destruct (Hclaim _ _ eq_refl eq_refl eq_refl eq_refl) as (suffix & _ & _ & Hframes).
  apply (f_equal length) in Hframes. vm_compute in Hframes. discriminate.
Qed.

(** C3 fails: the line ["  data: hi\n"] is relayed as [data: hi], the
    leading blanks gone; stripped at the end only it would not start with
    the prefix and would be wrapped in a second one. *)
Lemma leading_whitespace_is_stripped :
  ~ trailing_strip_claim (rt := example_builtins) (lit "  data: hi" ++ NL).
Proof.
  intros Hclaim. specialize (Hclaim _ eq_refl). vm_compute in Hclaim. discriminate.
Qed.

(** C5 fails: a webhook answers 201 with a well-formed reply; the
    translator yields the error frame of the HTTP-error path. *)
Lemma status_201_takes_error_path :
  ~ any_2xx_claim (rt := example_builtins) example_settings
      (answering (answer 201 (lit "Created") (JDict [(lit "content", JStr (lit "hi"))]) []))
      example_url (example_envelope false) (Some (lit "s3cr3t")).
Proof.
  intros Hclaim. specialize (Hclaim _ eq_refl ltac:(simpl; lia)).
  apply (f_equal frames) in Hclaim. vm_compute in Hclaim. discriminate.
Qed.

(** C8 fails: a webhook answers 401 and repeats the [Authorization]
    header in its body; the translator logs that body, token included. *)
Lemma echoed_token_reaches_log :
  ~ token_never_logged_claim (rt := example_builtins) example_settings echoing
      (example_body false None) example_user.
Proof.
  unfold token_never_logged_claim. intros Hclaim.
  destruct Hclaim as [_ Hlog].
  { split; intros E; vm_compute in E; discriminate. }
  rewrite Forall_forall in Hlog.
  specialize (Hlog (lit "n8n webhook error: 401 - Bearer s3cr3t")).
  assert (Hin : lit "n8n webhook error: 401 - Bearer s3cr3t" ∈
                logged (exchange (chat_completions (rt := example_builtins) example_settings
                                    echoing (example_body false None) example_user))).
  { vm_compute. apply list_elem_of_further, list_elem_of_here. }
  specialize (Hlog Hin). vm_compute in Hlog. discriminate.
Qed.

(** * Further properties *)

Section MoreRuns.
Context {rt : Builtins}.

Lemma dispatch_framed settings w request_data response :
  Forall sse_framed (yielded (fst (dispatch settings w request_data response))).
Proof.
  unfold dispatch. destruct (negb (status response =? 200)).
  { rewrite report_http_error_eq. destruct (text response); repeat constructor.
    apply sse_is_framed. }
  destruct (wants_stream request_data).
  - rewrite relay_stream_eq. pose proof (for_each_framed (content response)) as Hf.
    unfold frames, trace in Hf.
    destruct (for_each (content response) relay_line) as [t [e|[]]]; [exact Hf|].
    destruct (content_end response); exact Hf.
  - rewrite synthesize_completion_eq.
    destruct (json response) as [e|[]]; repeat constructor;
      [apply sse_is_framed | apply DONE_framed].
Qed.

(** X1.  Whatever the webhook does -- refuse the connection, answer with any
    status, break off, send bytes that are not UTF-8 or JSON that is not an
    object -- no [Exception] escapes [stream_n8n_response]: the generator
    returns normally. *)
Theorem translator_never_raises settings w url request_data tok :
  snd (stream_n8n_response settings w url request_data tok) = inr tt.
Proof.
  destruct (upstream w (outbound url request_data tok)) as [e|response] eqn:Hup.
  - rewrite (run_refused _ _ _ _ _ _ Hup). reflexivity.
  - rewrite (run_answered _ _ _ _ _ _ Hup), guarded_eq.
    destruct (dispatch settings w request_data response) as [t [e|[]]]; reflexivity.
Qed.

(** X2.  Every chunk [stream_n8n_response] yields, in every branch and for
    every behaviour of the webhook, is SSE-framed: it starts with ["data: "]
    and ends with a blank line. *)
Theorem every_chunk_is_framed settings w url request_data tok :
  Forall sse_framed (frames (stream_n8n_response settings w url request_data tok)).
Proof.
  destruct (upstream w (outbound url request_data tok)) as [e|response] eqn:Hup.
  - rewrite (run_refused _ _ _ _ _ _ Hup). repeat constructor. apply fault_frame_framed.
  - rewrite (run_answered _ _ _ _ _ _ Hup), guarded_eq.
    pose proof (dispatch_framed settings w request_data response) as Hd.
    destruct (dispatch settings w request_data response) as [t [e|[]]];
      unfold frames, trace; simpl in *; [|exact Hd].
    rewrite yielded_app. apply Forall_app. split; [exact Hd|].
    repeat constructor. apply fault_frame_framed.
Qed.

(** X3.  With a configured URL one call of the chat-completion route calls
    [session.post] exactly once, whatever comes back: the router never
    repeats the call.  (The requests aiohttp makes inside that call when it
    follows redirects are the client's and are not counted.)  The call is
    made with the configured URL, the envelope as [json=], [ssl=False] and
    the header [Content-Type: application/json]. *)
Theorem one_request_per_call settings w body user :
  unconfigured (N8N_WEBHOOK_URL settings) = false ->
  exists rq,
    posted (exchange (chat_completions settings w body user)) = [rq] /\
    req_url rq = N8N_WEBHOOK_URL settings /\
    req_json rq = n8n_request body user /\
    req_ssl rq = false /\
    req_headers rq !! lit "Content-Type" = Some (lit "application/json").
Proof.
  intros Hconf. rewrite posted_exchange, Hconf. eexists. split; [reflexivity|].
  repeat split. unfold outbound, request_headers. simpl.
  destruct (auth_token_arg settings) as [[|c tok]|].
  - apply lookup_singleton_eq.
  - rewrite lookup_insert_ne by discriminate. apply lookup_singleton_eq.
  - apply lookup_singleton_eq.
Qed.

Lemma logged_relay_line (line : bytes) : logged (trace (relay_line line)) = [].
Proof.
  rewrite relay_line_eq. destruct (utf8_decode line) as [text|]; [|reflexivity].
  destruct (startswith (lit "data: ") (strip text)); [reflexivity|].
  destruct (strip text); reflexivity.
Qed.

Lemma logged_for_each (lines : list bytes) :
  logged (trace (for_each lines relay_line)) = [].
Proof.
  induction lines as [|line lines IH]; [reflexivity|].
  pose proof (logged_relay_line line) as Hl. simpl.
  destruct (relay_line line) as [t [e|[]]]; simpl in *; [exact Hl|].
  destruct (for_each lines relay_line) as [t' r]. simpl in *.
  rewrite logged_app, Hl, IH. reflexivity.
Qed.

Lemma logged_success_path settings w request_data response :
  logged (fst (success_path settings w request_data response)) = [].
Proof.
  unfold success_path. destruct (wants_stream request_data).
  - rewrite relay_stream_eq. pose proof (logged_for_each (content response)) as Hl.
    unfold trace in Hl.
    destruct (for_each (content response) relay_line) as [t [e|[]]]; [exact Hl|].
    destruct (content_end response); exact Hl.
  - rewrite synthesize_completion_eq. destruct (json response) as [e|[]]; reflexivity.
Qed.

(** X4.  A run of the translator logs nothing when it succeeds (status 200 and
    the relay or the synthesis ends without exception) and exactly one
    record otherwise, in which case the last frame is an error frame. *)
Theorem failures_logged_once settings w url request_data tok :
  let run := stream_n8n_response settings w url request_data tok in
  (logged (trace run) = [] /\
   exists response,
     upstream w (outbound url request_data tok) = inr response /\
     status response = 200 /\
     snd (success_path settings w request_data response) = inr tt) \/
  (exists msg f,
     logged (trace run) = [msg] /\ last (frames run) = Some f /\ is_error_frame f /\
     ~ (exists response,
          upstream w (outbound url request_data tok) = inr response /\
          status response = 200 /\
          snd (success_path settings w request_data response) = inr tt)).
Proof.
  intros run. subst run.
  destruct (upstream w (outbound url request_data tok)) as [e|response] eqn:Hup.
  { right. rewrite (run_refused _ _ _ _ _ _ Hup).
    exists (fault_log e), (fault_frame e).
    repeat split; [apply fault_frame_is_error_frame|].
    intros (r & Hr & _). discriminate. }
  rewrite (run_answered _ _ _ _ _ _ Hup), guarded_eq.
  unfold dispatch.
  destruct (Z.eqb_spec (status response) 200) as [Hst|Hst]; simpl negb; cbv iota.
  2: { right. rewrite report_http_error_eq.
       destruct (text response) as [e|body].
       - exists (fault_log e), (fault_frame e).
         repeat split; [apply fault_frame_is_error_frame|].
         intros (r & Hr & Hs & _). congruence.
       - do 2 eexists. repeat split; [eexists; reflexivity|].
         intros (r & Hr & Hs & _). congruence. }
  fold (success_path settings w request_data response).
  pose proof (logged_success_path settings w request_data response) as Hlog.
  destruct (success_path settings w request_data response) as [t [e|[]]] eqn:Hpath.
  - right. exists (fault_log e), (fault_frame e). unfold frames, trace.
    cbn [fst snd logged yielded] in *. rewrite logged_app, Hlog, yielded_app.
    change (yielded [LogError (fault_log e); Yield (fault_frame e)]) with [fault_frame e].
    rewrite last_snoc.
    repeat split; [apply fault_frame_is_error_frame|].
    intros (r & Hr & _ & Hs). assert (r = response) by congruence. subst r.
    rewrite Hpath in Hs. discriminate.
  - left. simpl in *. split; [exact Hlog|]. exists response. rewrite Hpath. auto.
Qed.

Lemma logged_run_short settings w url request_data tok :
  (length (logged (trace (stream_n8n_response settings w url request_data tok))) <= 1)%nat.
Proof.
  destruct (upstream w (outbound url request_data tok)) as [e|response] eqn:Hup.
  { rewrite (run_refused _ _ _ _ _ _ Hup). simpl. lia. }
  run_with Hup.
  destruct (negb (status response =? 200)).
  { rewrite report_http_error_eq. destruct (text response); simpl; lia. }
  fold (success_path settings w request_data response).
  pose proof (logged_success_path settings w request_data response) as Hlog.
  destruct (success_path settings w request_data response) as [t [e|[]]];
    cbn [trace fst snd logged] in *; [rewrite logged_app|]; rewrite Hlog; simpl; lia.
Qed.

(** X5.  Every call of the chat-completion route logs the caller's email
    first, even a call refused for want of a URL; at most one more record
    follows, and none when the call is refused. *)
Theorem caller_logged_first settings w body user :
  exists rest,
    logged (exchange (chat_completions settings w body user)) =
      (lit "n8n chat completion request from user: " ++ user_email user) :: rest /\
    (length rest <= 1)%nat /\
    (unconfigured (N8N_WEBHOOK_URL settings) = true -> rest = []).
Proof.
  unfold chat_completions, exchange, unconfigured.
  destruct (str_eqb (N8N_WEBHOOK_URL settings) [] ||
            str_eqb (N8N_WEBHOOK_URL settings) (lit "YOUR_N8N_WEBHOOK_URL")).
  - exists []. repeat split. simpl. lia.
  - cbn [fst snd body_iterator].
    exists (logged (trace (stream_n8n_response settings w (N8N_WEBHOOK_URL settings)
                             (n8n_request body user) (auth_token_arg settings)))).
    split; [reflexivity|]. split; [|discriminate].
    apply logged_run_short.
Qed.

End MoreRuns.

Ltac printable_literal :=
  vm_compute; repeat (constructor; [split; discriminate|]); constructor.

Lemma lower_hex_printable (c : Z) : lower_hex c -> printable c.
Proof. unfold lower_hex, printable. lia. Qed.

Lemma u_escape_printable (n : Z) : Forall printable (u_escape n).
Proof.
  unfold u_escape. apply Forall_app. split.
  - repeat constructor; unfold printable; lia.
  - eapply Forall_impl; [apply hex_fixed_lower|]. apply lower_hex_printable.
Qed.

Lemma escape_char_printable (c : Z) : Forall printable (escape_char c).
Proof.
  unfold escape_char.
  repeat match goal with
         | |- context [if ?b then _ else _] => destruct b eqn:?
         end;
    try (repeat constructor; unfold printable; lia);
    try apply u_escape_printable;
    try (apply Forall_app; split; apply u_escape_printable).
Qed.

Lemma encode_printable (s : str) : Forall printable (encode_basestring_ascii s).
Proof.
  unfold encode_basestring_ascii. apply Forall_app. split.
  { repeat constructor; unfold printable; lia. }
  apply Forall_app. split; [|repeat constructor; unfold printable; lia].
  induction s as [|c s IH]; simpl; [constructor|].
  apply Forall_app. split; [apply escape_char_printable|exact IH].
Qed.

Lemma uint_printable (d : Decimal.uint) :
  Forall printable (lit (NilEmpty.string_of_uint d)).
Proof.
  induction d; simpl; try constructor; try exact IHd; unfold printable; vm_compute;
    split; discriminate.
Qed.

Lemma int_to_str_printable (n : Z) : Forall printable (int_to_str n).
Proof.
  unfold int_to_str. destruct (Z.to_int n) as [d|d]; simpl.
  - apply uint_printable.
  - constructor; [unfold printable; vm_compute; split; discriminate|apply uint_printable].
Qed.

Lemma float_dumps_printable (f : pyfloat) :
  ascii_floats (JFloat f) -> Forall printable (float_dumps f).
Proof.
  destruct f as [r| |[]]; simpl; intros Hf; [exact Hf| | |]; printable_literal.
Qed.

Lemma json_dumps_printable :
  forall v : JSON, ascii_floats v -> Forall printable (json_dumps v).
Proof.
  fix IH 1. intros [| [] | n | f | s | l | d] Hv.
  - printable_literal.
  - printable_literal.
  - printable_literal.
  - apply int_to_str_printable.
  - apply float_dumps_printable, Hv.
  - apply encode_printable.
  - cbn [json_dumps]. apply Forall_app. split; [printable_literal|].
    apply Forall_app. split; [|printable_literal].
    induction l as [|x l IHl]; [constructor|].
    destruct Hv as [Hx Hl]. apply Forall_app. split; [apply IH, Hx|].
    destruct l as [|y l]; [constructor|].
    apply Forall_app. split; [printable_literal|]. apply IHl, Hl.
  - cbn [json_dumps]. apply Forall_app. split; [printable_literal|].
    apply Forall_app. split; [|printable_literal].
    induction d as [|[k x] d IHd]; [constructor|].
    destruct Hv as [Hx Hd]. apply Forall_app. split; [apply encode_printable|].
    apply Forall_app. split; [printable_literal|].
    apply Forall_app. split; [apply IH, Hx|].
    destruct d as [|y d]; [constructor|].
    apply Forall_app. split; [printable_literal|]. apply IHd, Hd.
Qed.

(** X6.  An error frame, whatever the message it carries (newlines, quotes,
    non-ASCII text), is ["data: "], a payload of printable ASCII characters
    only, and the blank line: the message cannot break the framing. *)
Theorem error_frame_is_one_ascii_line (message : str) :
  exists payload,
    error_frame message = lit "data: " ++ payload ++ NL ++ NL /\
    Forall printable payload.
Proof.
  eexists. split; [reflexivity|]. apply json_dumps_printable. simpl. auto.
Qed.

(** ** Whitespace *)

Lemma lstrip_idem (s : str) : lstrip (lstrip s) = lstrip s.
Proof.
  induction s as [|c s IH]; simpl; [reflexivity|].
  destruct (isspace c) eqn:Hc; [exact IH|]. simpl. rewrite Hc. reflexivity.
Qed.

Lemma lstrip_app (y z : str) : lstrip y <> [] -> lstrip (y ++ z) = lstrip y ++ z.
Proof.
  induction y as [|c y IH]; simpl; [congruence|].
  destruct (isspace c); [exact IH|reflexivity].
Qed.

Lemma lstrip_head (s : str) :
  lstrip s = [] \/ exists c s', lstrip s = c :: s' /\ isspace c = false.
Proof.
  induction s as [|c s IH]; simpl; [left; reflexivity|].
  destruct (isspace c) eqn:Hc; [exact IH|]. right. eauto.
Qed.

Lemma rstrip_idem (s : str) : rstrip (rstrip s) = rstrip s.
Proof. unfold rstrip. rewrite rev_involutive, lstrip_idem. reflexivity. Qed.

Lemma rstrip_app (x d : str) : rstrip d <> [] -> rstrip (x ++ d) = x ++ rstrip d.
Proof.
  unfold rstrip. intros Hd. rewrite rev_app_distr, lstrip_app.
  - rewrite rev_app_distr, rev_involutive. reflexivity.
  - intros E. rewrite E in Hd. apply Hd. reflexivity.
Qed.

Lemma rstrip_snoc_space (s : str) (c : Z) :
  isspace c = true -> rstrip (s ++ [c]) = rstrip s.
Proof. intros Hc. unfold rstrip. rewrite rev_app_distr. simpl. rewrite Hc. reflexivity. Qed.

Lemma rstrip_cons (c : Z) (s : str) :
  isspace c = false -> rstrip (c :: s) = c :: rstrip s.
Proof.
  intros Hc. change (c :: s) with ([c] ++ s).
  destruct (rstrip s) as [|a r] eqn:Hs.
  - unfold rstrip in *. rewrite rev_app_distr. simpl.
    assert (Hl : lstrip (rev s) = []).
    { apply (f_equal (@rev Z)) in Hs. rewrite rev_involutive in Hs. exact Hs. }
    clear Hs. induction (rev s) as [|b t IH]; simpl in *.
    + rewrite Hc. reflexivity.
    + destruct (isspace b); [apply IH, Hl|discriminate].
  - rewrite rstrip_app by (rewrite Hs; discriminate). rewrite Hs. reflexivity.
Qed.

Lemma strip_tight (t : str) : strip t = [] \/ tight (strip t).
Proof.
  unfold strip. destruct (lstrip_head t) as [E | (c & s' & E & Hc)]; rewrite E.
  - left. reflexivity.
  - right. rewrite (rstrip_cons c s' Hc). exists c, (rstrip s'). repeat split; [exact Hc|].
    rewrite <- (rstrip_cons c s' Hc). apply rstrip_idem.
Qed.

Lemma strip_framed (d : str) : tight d -> strip (d ++ NL ++ NL) = d.
Proof.
  intros (c & m & -> & Hc & Hr). unfold strip.
  replace (lstrip ((c :: m) ++ NL ++ NL)) with (((c :: m) ++ [10]) ++ [10])
    by (simpl; rewrite Hc, <- app_assoc; reflexivity).
  rewrite !rstrip_snoc_space by reflexivity. exact Hr.
Qed.

Lemma yielded_map_Yield (fs : list str) : yielded (map Yield fs) = fs.
Proof. induction fs; simpl; congruence. Qed.

Section Relay.
Context {rt : Builtins}.

Lemma relay_line_frames_eq (line : bytes) (text : str) :
  utf8_decode line = Some text ->
  relay_line line =
  (map Yield (if startswith (lit "data: ") (strip text) then [strip text ++ NL ++ NL]
              else match strip text with
                   | [] => []
                   | _ :: _ => [lit "data: " ++ strip text ++ NL ++ NL]
                   end), inr tt).
Proof.
  intros Hdec. rewrite relay_line_eq, Hdec.
  destruct (startswith (lit "data: ") (strip text)); [reflexivity|].
  destruct (strip text); reflexivity.
Qed.

(** X11.  Relaying is idempotent: a frame that the relay has produced, sent
    through the relay again as one line, comes out unchanged (no second
    prefix, no lost terminator). *)
Theorem relay_is_idempotent (line line' : bytes) (text f : str) :
  utf8_decode line = Some text ->
  frames (relay_line line) = [f] ->
  utf8_decode line' = Some f ->
  relay_line line' = ([Yield f], inr tt).
Proof.
  intros Hdec Hf Hdec'. rewrite (relay_line_frames_eq _ _ Hdec) in Hf.
  unfold frames, trace in Hf. cbn [fst] in Hf. rewrite yielded_map_Yield in Hf.
  rewrite (relay_line_frames_eq _ _ Hdec').
  destruct (strip_tight text) as [E|Ht].
  { rewrite E in Hf. discriminate. }
  destruct (startswith (lit "data: ") (strip text)) eqn:Hp.
  - assert (Ef : f = strip text ++ NL ++ NL) by congruence. subst f.
    rewrite (strip_framed _ Ht), Hp. reflexivity.
  - destruct (strip text) as [|a d] eqn:Hs; [discriminate|].
    assert (Ef : f = lit "data: " ++ (a :: d) ++ NL ++ NL) by congruence. subst f.
    assert (Hpd : tight (lit "data: " ++ a :: d)).
    { destruct Ht as (c & m & E & Hc & Hr). eexists _, _. repeat split.
      change (lit "data: " ++ a :: d) with ((lit "data: ") ++ (a :: d)).
      rewrite rstrip_app; rewrite Hr; [reflexivity|discriminate]. }
    change (lit "data: " ++ (a :: d) ++ NL ++ NL)
      with ((lit "data: " ++ a :: d) ++ NL ++ NL).
    rewrite (strip_framed _ Hpd). reflexivity.
Qed.

(** X12.  The relay yields the sentinel [data: [DONE]] for a line exactly when
    the line's stripped text is ["data: [DONE]"] or the bare ["[DONE]"]. *)
Theorem relay_yields_sentinel_iff (line : bytes) (text : str) :
  utf8_decode line = Some text ->
  (DONE ∈ frames (relay_line line) <->
   strip text = lit "data: [DONE]" \/ strip text = lit "[DONE]").
Proof.
  intros Hdec. rewrite (relay_line_frames_eq _ _ Hdec). unfold frames, trace. cbn [fst].
  split.
  - destruct (startswith (lit "data: ") (strip text)) eqn:Hp.
    + intros Hin. apply list_elem_of_singleton in Hin. left.
      unfold DONE in Hin. apply app_inv_tail in Hin. congruence.
    + destruct (strip text) as [|a d] eqn:Hs; [intros Hin; inversion Hin|].
      intros Hin. apply list_elem_of_singleton in Hin. right.
      unfold DONE in Hin. change (lit "data: [DONE]") with (lit "data: " ++ lit "[DONE]") in Hin.
      rewrite <- app_assoc in Hin. apply app_inv_head in Hin.
      apply app_inv_tail in Hin. congruence.
  - intros [-> | ->]; apply list_elem_of_singleton; reflexivity.
Qed.

Lemma utf8_decode_ascii (line : bytes) :
  Forall (fun b => 0 <= b < 128) line -> utf8_decode line = Some line.
Proof.
  induction 1 as [|b line Hb _ IH]; [reflexivity|].
  simpl. destruct (Z.leb_spec 0 b); [|lia]. destruct (Z.ltb_spec b 128); [|lia].
  simpl. rewrite IH. reflexivity.
Qed.

Lemma for_each_decodable (lines : list bytes) :
  Forall (fun line => is_Some (utf8_decode line)) lines ->
  for_each lines relay_line =
  (map Yield (concat (map (fun line => frames (relay_line line)) lines)), inr tt).
Proof.
  induction 1 as [|line lines [text Hdec] _ IH]; [reflexivity|].
  cbn [for_each map concat]. rewrite IH.
  rewrite (relay_line_frames_eq _ _ Hdec). unfold frames, trace. cbn [fst bind].
  set (fs := if startswith (lit "data: ") (strip text) then _ else _).
  assert (Hy : yielded (map Yield fs) = fs).
  { clear. induction fs; simpl; congruence. }
  rewrite Hy, map_app. reflexivity.
Qed.

Lemma for_each_cut (before after : list bytes) (bad : bytes) :
  Forall (fun line => is_Some (utf8_decode line)) before ->
  utf8_decode bad = None ->
  for_each (before ++ bad :: after) relay_line =
  (map Yield (concat (map (fun line => frames (relay_line line)) before)),
   inl (OtherException (decode_error_text bad))).
Proof.
  intros Hbefore Hbad. induction Hbefore as [|line lines [text Hdec] _ IH].
  - cbn [app for_each map concat]. rewrite relay_line_eq, Hbad. reflexivity.
  - cbn [app for_each map concat]. rewrite IH.
    rewrite (relay_line_frames_eq _ _ Hdec). unfold frames, trace. cbn [fst bind].
    set (fs := if startswith (lit "data: ") (strip text) then _ else _).
    assert (Hy : yielded (map Yield fs) = fs).
    { clear. induction fs; simpl; congruence. }
    rewrite Hy, map_app. reflexivity.
Qed.

(** X8.  A streamed answer with status 200 whose lines all decode and whose body
    ends normally is relayed in order: the run is the request followed by
    the frames of the first line, of the second, and so on; a line gives at
    most one frame, so there are never more frames than lines. *)
Theorem relay_keeps_order settings w url request_data tok response :
  upstream w (outbound url request_data tok) = inr response ->
  status response = 200 ->
  wants_stream request_data = true ->
  content_end response = None ->
  Forall (fun line => is_Some (utf8_decode line)) (content response) ->
  let run := stream_n8n_response settings w url request_data tok in
  trace run =
    Post (outbound url request_data tok) ::
    map Yield (concat (map (fun line => frames (relay_line line)) (content response))) /\
  Forall (fun line => (length (frames (relay_line line)) <= 1)%nat) (content response) /\
  (length (frames run) <= length (content response))%nat.
Proof.
  intros Hup Hst Hmode Hend Hdec run. subst run.
  assert (Hone : Forall (fun line => (length (frames (relay_line line)) <= 1)%nat)
                        (content response)).
  { eapply Forall_impl; [exact Hdec|]. intros line [text Ht].
    rewrite (relay_line_frames_eq _ _ Ht). unfold frames, trace. cbn [fst].
    rewrite yielded_map_Yield.
    destruct (startswith (lit "data: ") (strip text)); [simpl; lia|].
    destruct (strip text); simpl; lia. }
  run_with Hup. rewrite Hst, Hmode. cbn [Z.eqb Pos.eqb negb]. cbv iota.
  rewrite relay_stream_eq, Hend, (for_each_decodable _ Hdec).
  split; [reflexivity|]. split; [exact Hone|].
  unfold frames, trace. cbn [fst yielded]. rewrite yielded_map_Yield.
  clear -Hone. induction Hone as [|line lines Hl _ IH]; [simpl; lia|].
  cbn [map concat]. rewrite length_app.
  change (length (line :: lines)) with (S (length lines)).
  unfold frames, trace in *. lia.
Qed.

(** X9.  A line that is not UTF-8 ends the relay: the lines before it are
    relayed, one [Unexpected error] frame with the decoder's message
    follows, and the lines after it are never relayed. *)
Theorem undecodable_line_ends_relay settings w url request_data tok response
    before bad after :
  upstream w (outbound url request_data tok) = inr response ->
  status response = 200 ->
  wants_stream request_data = true ->
  content response = before ++ bad :: after ->
  Forall (fun line => is_Some (utf8_decode line)) before ->
  utf8_decode bad = None ->
  frames (stream_n8n_response settings w url request_data tok) =
    concat (map (fun line => frames (relay_line line)) before) ++
    [error_frame (lit "Unexpected error: " ++ decode_error_text bad)].
Proof.
  intros Hup Hst Hmode Hcontent Hbefore Hbad.
  run_with Hup. rewrite Hst, Hmode. cbn [Z.eqb Pos.eqb negb]. cbv iota.
  rewrite relay_stream_eq, Hcontent, (for_each_cut _ _ _ Hbefore Hbad).
  unfold frames, trace. cbn [fst yielded]. rewrite yielded_app, yielded_map_Yield.
  reflexivity.
Qed.

(** X10.  A streamed answer with status 200 whose lines are ASCII and whose body
    ends normally is relayed whole: nothing is logged, and the frames are
    those of the lines' own stripped text. *)
Theorem ascii_body_relayed_whole settings w url request_data tok response :
  upstream w (outbound url request_data tok) = inr response ->
  status response = 200 ->
  wants_stream request_data = true ->
  content_end response = None ->
  Forall (Forall (fun b => 0 <= b < 128)) (content response) ->
  let run := stream_n8n_response settings w url request_data tok in
  logged (trace run) = [] /\
  frames run =
    concat (map (fun line =>
                   if startswith (lit "data: ") (strip line) then [strip line ++ NL ++ NL]
                   else match strip line with
                        | [] => []
                        | _ :: _ => [lit "data: " ++ strip line ++ NL ++ NL]
                        end) (content response)).
Proof.
  intros Hup Hst Hmode Hend Hascii run. subst run.
  assert (Hdec : Forall (fun line => is_Some (utf8_decode line)) (content response)).
  { eapply Forall_impl; [exact Hascii|]. intros line Hl.
    rewrite (utf8_decode_ascii _ Hl). eauto. }
  run_with Hup. rewrite Hst, Hmode. cbn [Z.eqb Pos.eqb negb]. cbv iota.
  rewrite relay_stream_eq, Hend, (for_each_decodable _ Hdec).
  unfold frames, trace. cbn [fst yielded logged].
  split.
  - clear. induction (concat _); simpl; congruence.
  - rewrite yielded_map_Yield. f_equal. apply map_ext_Forall.
    eapply Forall_impl; [exact Hascii|]. intros line Hl. cbv beta.
    rewrite (relay_line_frames_eq _ _ (utf8_decode_ascii _ Hl)).
    cbn [fst]. apply yielded_map_Yield.
Qed.

End Relay.

Lemma dict_get_ascii_floats (d : dict) (key : str) (default : JSON) :
  ascii_floats (JDict d) -> ascii_floats default -> ascii_floats (dict_get d key default).
Proof.
  intros Hd Hdef. induction d as [|[k v] d IH]; [exact Hdef|].
  destruct Hd as [Hv Hd]. simpl. destruct (str_eqb k key); [exact Hv|apply IH, Hd].
Qed.

Lemma wants_stream_envelope body user : wants_stream (n8n_request body user) = stream body.
Proof. reflexivity. Qed.

Lemma envelope_model settings body user :
  dict_get (n8n_request body user) (lit "model") (JStr (N8N_MODEL_NAME settings)) =
  JStr (model body).
Proof. reflexivity. Qed.

Lemma header_of_token settings :
  request_headers (auth_token_arg settings) !! lit "Authorization" =
  if str_eqb (N8N_WEBHOOK_AUTH_TOKEN settings) [] ||
     str_eqb (N8N_WEBHOOK_AUTH_TOKEN settings) (lit "YOUR_N8N_WEBHOOK_AUTH_TOKEN")
  then None
  else Some (lit "Bearer " ++ N8N_WEBHOOK_AUTH_TOKEN settings).
Proof.
  destruct (str_eqb (N8N_WEBHOOK_AUTH_TOKEN settings) []) eqn:He.
  { apply str_eqb_true in He. apply no_token_no_header. unfold auth_token_arg.
    rewrite He. right. reflexivity. }
  destruct (str_eqb (N8N_WEBHOOK_AUTH_TOKEN settings)
                    (lit "YOUR_N8N_WEBHOOK_AUTH_TOKEN")) eqn:Hp; cbn [orb].
  - apply no_token_no_header. unfold auth_token_arg. rewrite Hp. left. reflexivity.
  - apply auth_token_arg_configured. split; apply str_eqb_false; assumption.
Qed.

Section Routes.
Context {rt : Builtins}.

Lemma chat_configured settings w body user :
  unconfigured (N8N_WEBHOOK_URL settings) = false ->
  exchange (chat_completions settings w body user) =
  LogInfo (lit "n8n chat completion request from user: " ++ user_email user) ::
  trace (stream_n8n_response settings w (N8N_WEBHOOK_URL settings)
           (n8n_request body user) (auth_token_arg settings)).
Proof.
  intros Hconf. unfold chat_completions, exchange. unfold unconfigured in Hconf.
  rewrite Hconf. reflexivity.
Qed.

Lemma chat_buffered_frames settings w body user response d :
  unconfigured (N8N_WEBHOOK_URL settings) = false ->
  stream body = false ->
  upstream w (outbound (N8N_WEBHOOK_URL settings) (n8n_request body user)
                       (auth_token_arg settings)) = inr response ->
  status response = 200 ->
  json response = inr (JDict d) ->
  yielded (exchange (chat_completions settings w body user)) =
  [ sse (json_dumps
      (formatted_response (JStr (model body)) w
         (dict_get d (lit "content")
            (dict_get d (lit "response") (JStr (py_str (JDict d)))))));
    DONE ].
Proof.
  intros Hconf Hmode Hup Hst Hjson. rewrite (chat_configured _ _ _ _ Hconf).
  cbn [yielded]. run_with Hup. rewrite Hst, wants_stream_envelope, Hmode.
  cbn [Z.eqb Pos.eqb negb]. cbv iota.
  rewrite synthesize_completion_eq, Hjson, envelope_model. reflexivity.
Qed.

(** X13.  On the chat-completion route the envelope is read back as it was
    written: with the body's stream flag false and a 200 object reply, the
    completion names the body's model -- the fall-back to [N8N_MODEL_NAME] of
    line 120 is never taken -- and carries the reply's content. *)
Theorem chat_completion_names_body_model settings w body user response d :
  unconfigured (N8N_WEBHOOK_URL settings) = false ->
  stream body = false ->
  upstream w (outbound (N8N_WEBHOOK_URL settings) (n8n_request body user)
                       (auth_token_arg settings)) = inr response ->
  status response = 200 ->
  json response = inr (JDict d) ->
  exists suffix content,
    yielded (exchange (chat_completions settings w body user)) =
      [ sse (json_dumps (completion_object suffix (clock w) (JStr (model body)) content));
        DONE ] /\
    content = dict_get d (lit "content")
                (dict_get d (lit "response") (JStr (py_str (JDict d)))).
Proof.
  intros Hconf Hmode Hup Hst Hjson.
  rewrite (chat_buffered_frames _ _ _ _ _ _ Hconf Hmode Hup Hst Hjson).
  do 2 eexists. split; reflexivity.
Qed.

(** X7.  On the chat-completion route the synthesized completion, whatever
    text the webhook's reply holds, is ["data: "], a payload of printable
    ASCII characters only, and the blank line, followed by [DONE].  (The
    floats of the reply print as ASCII, as every Python float does.) *)
Theorem completion_frame_is_one_ascii_line settings w body user response d :
  unconfigured (N8N_WEBHOOK_URL settings) = false ->
  stream body = false ->
  upstream w (outbound (N8N_WEBHOOK_URL settings) (n8n_request body user)
                       (auth_token_arg settings)) = inr response ->
  status response = 200 ->
  json response = inr (JDict d) ->
  ascii_floats (JDict d) ->
  exists payload,
    yielded (exchange (chat_completions settings w body user)) =
      [ lit "data: " ++ payload ++ NL ++ NL; DONE ] /\
    Forall printable payload.
Proof.
  intros Hconf Hmode Hup Hst Hjson Hfloats.
  rewrite (chat_buffered_frames _ _ _ _ _ _ Hconf Hmode Hup Hst Hjson).
  eexists. split; [reflexivity|]. apply json_dumps_printable.
  cbn [ascii_floats formatted_response]. repeat split.
  apply dict_get_ascii_floats; [exact Hfloats|].
  apply dict_get_ascii_floats; [exact Hfloats|exact I].
Qed.

(** X14.  For an answer with a status other than 200 the frames and the log
    depend on the status and the body text alone: not on the stream flag or
    any other part of the envelope, not on the URL, the token or the
    settings, and not on what else the response holds. *)
Theorem http_error_report_ignores_request settings settings' w w' url url'
    request_data request_data' tok tok' response response' :
  upstream w (outbound url request_data tok) = inr response ->
  upstream w' (outbound url' request_data' tok') = inr response' ->
  status response <> 200 ->
  status response' = status response ->
  text response' = text response ->
  let run := stream_n8n_response settings w url request_data tok in
  let run' := stream_n8n_response settings' w' url' request_data' tok' in
  frames run' = frames run /\ logged (trace run') = logged (trace run).
Proof.
  intros Hup Hup' Hst Hst' Htext run run'. subst run run'.
  assert (Hne : status response' <> 200) by congruence.
  rewrite (run_answered _ _ _ _ _ _ Hup), (run_answered _ _ _ _ _ _ Hup'), !guarded_eq.
  unfold dispatch.
  destruct (Z.eqb_spec (status response) 200) as [E|_]; [contradiction|].
  destruct (Z.eqb_spec (status response') 200) as [E|_]; [contradiction|].
  simpl negb. cbv iota. rewrite !report_http_error_eq, Htext, Hst'.
  destruct (text response); split; reflexivity.
Qed.

(** X15.  When the status route says [configured: false] the chat-completion
    route refuses; the two routes disagree -- [configured: true] and a
    refusal -- exactly when the URL is the empty string. *)
Theorem status_and_chat_disagree_iff_url_empty settings w body user :
  let configured := dict_get (get_status settings) (lit "configured") JNull in
  let refused := exists exc, snd (chat_completions settings w body user) = inl exc in
  (configured = JBool false -> refused) /\
  (configured = JBool true /\ refused <-> N8N_WEBHOOK_URL settings = []).
Proof.
  cbv zeta. unfold get_status, chat_completions.
  cbn [dict_get]. change (str_eqb (lit "status") (lit "configured")) with false.
  change (str_eqb (lit "configured") (lit "configured")) with true. cbv iota.
  destruct (str_eqb (N8N_WEBHOOK_URL settings) []) eqn:He;
    destruct (str_eqb (N8N_WEBHOOK_URL settings) (lit "YOUR_N8N_WEBHOOK_URL")) eqn:Hp;
    cbn [orb negb snd].
  - apply str_eqb_true in He, Hp. rewrite He in Hp. discriminate.
  - apply str_eqb_true in He. split; [eauto|]. split; [intros _; exact He|eauto].
  - apply str_eqb_false in He. split; [eauto|].
    split; [intros [E _]; discriminate|contradiction].
  - apply str_eqb_false in He. split; [discriminate|].
    split; [intros [_ [exc E]]; discriminate|contradiction].
Qed.

End Routes.

(** X18.  [/models] lists exactly one model, whose id is [N8N_MODEL_NAME]; the
    status route and the embeddings route name the model ["n8n-agent"]
    whatever is configured, so they agree with [/models] exactly when
    [N8N_MODEL_NAME] is ["n8n-agent"]. *)
Theorem routes_agree_on_model_iff_default_name {cs : Casing} settings w body user :
  listed_ids (get_models settings w) = [JStr (N8N_MODEL_NAME settings)] /\
  (listed_ids (get_models settings w) = [dict_get (get_status settings) (lit "model") JNull]
   <-> N8N_MODEL_NAME settings = lit "n8n-agent") /\
  (forall answer,
     snd (create_embeddings body user) = inr answer ->
     (listed_ids (get_models settings w) = [dict_get answer (lit "model") JNull]
      <-> N8N_MODEL_NAME settings = lit "n8n-agent")).
Proof.
  split; [reflexivity|].
  assert (Hids : listed_ids (get_models settings w) = [JStr (N8N_MODEL_NAME settings)])
    by reflexivity.
  rewrite Hids. split.
  - change (dict_get (get_status settings) (lit "model") JNull) with (JStr (lit "n8n-agent")).
    split; [intros E; congruence|intros ->; reflexivity].
  - intros answer Hanswer. injection Hanswer as <-.
    change (dict_get _ (lit "model") JNull) with (JStr (lit "n8n-agent")).
    split; [intros E; congruence|intros ->; reflexivity].
Qed.

(** ** The [.env] rewrite *)

Section EnvFile.
Import SetupN8n.

Lemma lstrip_app_nil (y z : str) : lstrip y = [] -> lstrip (y ++ z) = lstrip z.
Proof.
  induction y as [|c y IH]; simpl; [reflexivity|].
  destruct (isspace c); [exact IH|discriminate].
Qed.

Lemma rstrip_app_nil (x d : str) : rstrip d = [] -> rstrip (x ++ d) = rstrip x.
Proof.
  unfold rstrip. intros Hd. rewrite rev_app_distr, lstrip_app_nil; [reflexivity|].
  apply (f_equal (@rev Z)) in Hd. rewrite rev_involutive in Hd. exact Hd.
Qed.

Lemma n8n_prefix_survives_strip (rest : str) : is_n8n_line (lit "N8N_" ++ rest) = true.
Proof.
  unfold is_n8n_line, strip.
  change (lstrip (lit "N8N_" ++ rest)) with (lit "N8N_" ++ rest).
  destruct (rstrip rest) as [|a r] eqn:Hr.
  - rewrite rstrip_app_nil by exact Hr. reflexivity.
  - rewrite rstrip_app by (rewrite Hr; discriminate). reflexivity.
Qed.

Lemma setting_lines_are_n8n (config : list (str * str)) :
  Forall (fun kv => startswith (lit "N8N_") (fst kv) = true) config ->
  Forall (fun line => is_n8n_line line = true) (setting_lines config).
Proof.
  induction 1 as [|[key value] config Hk _ IH]; [constructor|].
  simpl. destruct value as [|c value]; [exact IH|]. constructor; [|exact IH].
  cbn [fst] in Hk. apply startswith_split in Hk as [rest ->].
  rewrite <- app_assoc. apply n8n_prefix_survives_strip.
Qed.

Lemma n8n_config_lines_are_n8n (a : Answers) :
  Forall (fun line => is_n8n_line line = true) (setting_lines (n8n_config a)).
Proof. apply setting_lines_are_n8n. repeat constructor. Qed.

Lemma filter_none {A : Type} (p : A -> bool) (l : list A) :
  Forall (fun x => p x = false) l -> List.filter p l = [].
Proof. induction 1 as [|x l Hx _ IH]; simpl; [reflexivity|]. rewrite Hx. exact IH. Qed.

Lemma filter_all {A : Type} (p : A -> bool) (l : list A) :
  Forall (fun x => p x = true) l -> List.filter p l = l.
Proof. induction 1 as [|x l Hx _ IH]; simpl; [reflexivity|]. rewrite Hx, IH. reflexivity. Qed.

Lemma filter_idem {A : Type} (p : A -> bool) (l : list A) :
  List.filter p (List.filter p l) = List.filter p l.
Proof.
  induction l as [|x l IH]; simpl; [reflexivity|].
  destruct (p x) eqn:Hx; simpl; [rewrite Hx, IH|]; auto.
Qed.

Lemma filter_compl {A : Type} (p : A -> bool) (l : list A) :
  List.filter p (List.filter (fun x => negb (p x)) l) = [].
Proof.
  induction l as [|x l IH]; simpl; [reflexivity|].
  destruct (p x) eqn:Hx; simpl; [|rewrite Hx]; exact IH.
Qed.

Lemma update_keeps_foreign_lines (env_lines : list str) (a : Answers) :
  List.filter (fun line => negb (is_n8n_line line)) (update_env_lines env_lines a) =
  List.filter (fun line => negb (is_n8n_line line)) env_lines ++ [block_header].
Proof.
  unfold update_env_lines. pose proof (n8n_config_lines_are_n8n a) as Hn.
  rewrite !List.filter_app, filter_idem.
  rewrite (filter_none (fun line => negb (is_n8n_line line)) (setting_lines (n8n_config a))).
  - rewrite app_nil_r. reflexivity.
  - eapply Forall_impl; [exact Hn|]. intros line ->. reflexivity.
Qed.

(** X19.  The [.env] rewrite of [setup_n8n] replaces the settings and nothing
    else: the [N8N_] lines of the file written are exactly the new
    [KEY=value] lines (one per non-empty answer, no stale line survives),
    and its other lines are the old file's other lines, in order, followed
    by the block's header comment. *)
Theorem env_update_replaces_settings_only (env_lines : list str) (a : Answers) :
  let written := update_env_lines env_lines a in
  List.filter is_n8n_line written = setting_lines (n8n_config a) /\
  List.filter (fun line => negb (is_n8n_line line)) written =
    List.filter (fun line => negb (is_n8n_line line)) env_lines ++ [block_header].
Proof.
  cbv zeta. split; [|apply update_keeps_foreign_lines].
  unfold update_env_lines. rewrite !List.filter_app.
  rewrite filter_compl, (filter_all _ _ (n8n_config_lines_are_n8n a)). reflexivity.
Qed.

(** X20.  Running the [.env] rewrite a second time replaces the settings of the
    first run by those of the second, keeps the foreign lines, and leaves
    the header comment twice: each run adds one more. *)
Theorem env_update_twice_repeats_header (env_lines : list str) (a a' : Answers) :
  update_env_lines (update_env_lines env_lines a) a' =
  List.filter (fun line => negb (is_n8n_line line)) env_lines ++
  [block_header; block_header] ++ setting_lines (n8n_config a').
Proof.
  unfold update_env_lines at 1.
  rewrite update_keeps_foreign_lines, <- app_assoc. reflexivity.
Qed.

End EnvFile.

Lemma lor_shiftl_add (x y n : Z) :
  0 <= n -> 0 <= y < 2 ^ n -> Z.lor (Z.shiftl x n) y = x * 2 ^ n + y.
Proof.
  intros Hn Hy.
  assert (Hdisj : Z.land (Z.shiftl x n) y = 0).
  { apply Z.bits_inj'. intros i Hi. rewrite Z.land_spec, Z.bits_0.
    destruct (Z.lt_ge_cases i n) as [Hlt|Hge].
    - rewrite Z.shiftl_spec_low by exact Hlt. reflexivity.
    - rewrite <- (Z.mod_small y (2 ^ n)) by exact Hy.
      rewrite Z.mod_pow2_bits_high by lia. apply andb_false_r. }
  rewrite <- Z.lxor_lor by exact Hdisj.
  rewrite <- Z.add_nocarry_lxor by exact Hdisj.
  rewrite Z.shiftl_mul_pow2 by exact Hn. reflexivity.
Qed.

Lemma land_low (b k : Z) : 0 <= k -> Z.land b (2 ^ k - 1) = b mod 2 ^ k.
Proof.
  intros Hk. replace (2 ^ k - 1) with (Z.ones k) by (rewrite Z.ones_equiv; lia).
  apply Z.land_ones, Hk.
Qed.

Lemma cont_bits_eq (b : Z) : 128 <= b <= 191 -> cont_bits b = b - 128.
Proof.
  intros Hb. unfold cont_bits. change 63 with (2 ^ 6 - 1). rewrite land_low by lia.
  symmetry. apply (Z.mod_unique_pos b (2 ^ 6) 2). lia. lia.
Qed.

Lemma lead_bits_eq (b k base : Z) :
  0 <= k -> base mod 2 ^ k = 0 -> base <= b < base + 2 ^ k ->
  Z.land b (2 ^ k - 1) = b - base.
Proof.
  intros Hk Hbase Hb. rewrite land_low by exact Hk.
  symmetry. apply (Z.mod_unique_pos b (2 ^ k) (base / 2 ^ k)); [lia|].
  pose proof (Z.div_mod base (2 ^ k) ltac:(lia)). lia.
Qed.

Lemma cont_in_spec (lo hi b : Z) : cont_in lo hi b = true -> lo <= b <= hi.
Proof. unfold cont_in. intros H. apply andb_prop in H as [H1 H2]. lia. Qed.

Lemma two_octets_scalar (b0 b1 : Z) :
  194 <= b0 <= 223 -> 128 <= b1 <= 191 ->
  scalar (Z.lor (Z.shiftl (Z.land b0 31) 6) (cont_bits b1)).
Proof.
  intros H0 H1. rewrite (cont_bits_eq b1 H1).
  change 31 with (2 ^ 5 - 1). rewrite (lead_bits_eq b0 5 192) by (try reflexivity; lia).
  rewrite lor_shiftl_add by lia. unfold scalar. lia.
Qed.

Lemma three_octets_scalar (b0 b1 b2 : Z) :
  224 <= b0 <= 239 ->
  (if b0 =? 224 then 160 else 128) <= b1 <= (if b0 =? 237 then 159 else 191) ->
  128 <= b2 <= 191 ->
  scalar (Z.lor (Z.shiftl (Z.land b0 15) 12)
            (Z.lor (Z.shiftl (cont_bits b1) 6) (cont_bits b2))).
Proof.
  intros H0 H1 H2.
  assert (H1' : 128 <= b1 <= 191)
    by (destruct (b0 =? 224), (b0 =? 237); lia).
  rewrite (cont_bits_eq b1 H1'), (cont_bits_eq b2 H2).
  change 15 with (2 ^ 4 - 1). rewrite (lead_bits_eq b0 4 224) by (try reflexivity; lia).
  rewrite (lor_shiftl_add (b1 - 128)) by lia. rewrite lor_shiftl_add by lia.
  unfold scalar.
  destruct (Z.eqb_spec b0 224), (Z.eqb_spec b0 237); lia.
Qed.

Lemma four_octets_scalar (b0 b1 b2 b3 : Z) :
  240 <= b0 <= 244 ->
  (if b0 =? 240 then 144 else 128) <= b1 <= (if b0 =? 244 then 143 else 191) ->
  128 <= b2 <= 191 -> 128 <= b3 <= 191 ->
  scalar (Z.lor (Z.shiftl (Z.land b0 7) 18)
            (Z.lor (Z.shiftl (cont_bits b1) 12)
               (Z.lor (Z.shiftl (cont_bits b2) 6) (cont_bits b3)))).
Proof.
  intros H0 H1 H2 H3.
  assert (H1' : 128 <= b1 <= 191)
    by (destruct (b0 =? 240), (b0 =? 244); lia).
  rewrite (cont_bits_eq b1 H1'), (cont_bits_eq b2 H2), (cont_bits_eq b3 H3).
  change 7 with (2 ^ 3 - 1). rewrite (lead_bits_eq b0 3 240) by (try reflexivity; lia).
  rewrite (lor_shiftl_add (b2 - 128)) by lia.
  rewrite (lor_shiftl_add (b1 - 128)) by lia.
  rewrite lor_shiftl_add by lia.
  unfold scalar.
  destruct (Z.eqb_spec b0 240), (Z.eqb_spec b0 244); lia.
Qed.

Lemma option_map_cons_Some (c : Z) (o : option str) (text : str) :
  option_map (cons c) o = Some text -> exists rest, o = Some rest /\ text = c :: rest.
Proof. destruct o as [rest|]; simpl; [|discriminate]. intros E. injection E as <-. eauto. Qed.

Lemma utf8_decode_scalar_bounded (n : nat) :
  forall (b : bytes) (text : str),
    (length b <= n)%nat -> utf8_decode b = Some text -> Forall scalar text.
Proof.
  induction n as [|n IH]; intros b text Hlen Hdec.
  { destruct b; [|simpl in Hlen; lia]. injection Hdec as <-. constructor. }
  destruct b as [|b0 r0]; [injection Hdec as <-; constructor|].
  cbn [utf8_decode] in Hdec. cbn [length] in Hlen.
  destruct ((0 <=? b0) && (b0 <? 128)) eqn:H1.
  { apply option_map_cons_Some in Hdec as (rest & Hrest & ->).
    apply andb_prop in H1 as [Ha Hb]. constructor; [unfold scalar; lia|].
    apply (IH r0); [lia|exact Hrest]. }
  destruct r0 as [|b1 r1]; [discriminate|]. cbn [length] in Hlen.
  destruct ((194 <=? b0) && (b0 <=? 223)) eqn:H2.
  { destruct (cont_in 128 191 b1) eqn:Hc1; [|discriminate].
    apply option_map_cons_Some in Hdec as (rest & Hrest & ->).
    apply andb_prop in H2 as [Ha Hb]. apply cont_in_spec in Hc1.
    constructor; [apply two_octets_scalar; lia|].
    apply (IH r1); [lia|exact Hrest]. }
  destruct r1 as [|b2 r2]; [discriminate|]. cbn [length] in Hlen.
  destruct ((224 <=? b0) && (b0 <=? 239)) eqn:H3.
  { destruct (cont_in _ _ b1 && cont_in 128 191 b2) eqn:Hc; [|discriminate].
    apply option_map_cons_Some in Hdec as (rest & Hrest & ->).
    apply andb_prop in H3 as [Ha Hb]. apply andb_prop in Hc as [Hc1 Hc2].
    apply cont_in_spec in Hc1, Hc2.
    constructor; [apply three_octets_scalar; lia|].
    apply (IH r2); [lia|exact Hrest]. }
  destruct r2 as [|b3 r3]; [discriminate|]. cbn [length] in Hlen.
  destruct ((240 <=? b0) && (b0 <=? 244)) eqn:H4; [|discriminate].
  destruct (cont_in _ _ b1 && cont_in 128 191 b2 && cont_in 128 191 b3) eqn:Hc;
    [|discriminate].
  apply option_map_cons_Some in Hdec as (rest & Hrest & ->).
  apply andb_prop in H4 as [Ha Hb]. apply andb_prop in Hc as [Hc12 Hc3].
  apply andb_prop in Hc12 as [Hc1 Hc2]. apply cont_in_spec in Hc1, Hc2, Hc3.
  constructor; [apply four_octets_scalar; lia|].
  apply (IH r3); [lia|exact Hrest].
Qed.

Lemma utf8_decode_scalar (b : bytes) (text : str) :
  utf8_decode b = Some text -> Forall scalar text.
Proof. apply (utf8_decode_scalar_bounded (length b)). lia. Qed.

Lemma printable_scalar (c : Z) : printable c -> scalar c.
Proof. unfold printable, scalar. lia. Qed.

Lemma lstrip_Forall (P : Z -> Prop) (s : str) : Forall P s -> Forall P (lstrip s).
Proof.
  induction 1 as [|c s Hc Hs IH]; simpl; [constructor|].
  destruct (isspace c); [exact IH|constructor; assumption].
Qed.

Lemma strip_Forall (P : Z -> Prop) (s : str) : Forall P s -> Forall P (strip s).
Proof.
  intros Hs. unfold strip, rstrip.
  apply Forall_rev, lstrip_Forall, Forall_rev, lstrip_Forall, Hs.
Qed.

Lemma sse_scalar (payload : str) : Forall scalar payload -> Forall scalar (sse payload).
Proof.
  intros Hp. unfold sse. apply Forall_app. split.
  { eapply Forall_impl; [|apply printable_scalar]. printable_literal. }
  apply Forall_app. split; [exact Hp|].
  repeat constructor; unfold scalar, NL; lia.
Qed.

Lemma dumps_scalar (v : JSON) : ascii_floats v -> Forall scalar (sse (json_dumps v)).
Proof.
  intros Hv. apply sse_scalar. eapply Forall_impl; [apply json_dumps_printable, Hv|].
  apply printable_scalar.
Qed.

Lemma error_frame_scalar (message : str) : Forall scalar (error_frame message).
Proof. apply dumps_scalar. simpl. auto. Qed.

Lemma fault_frame_scalar (e : exn) : Forall scalar (fault_frame e).
Proof. destruct e; apply error_frame_scalar. Qed.

Lemma DONE_scalar : Forall scalar DONE.
Proof.
  apply (sse_scalar (lit "[DONE]")).
  eapply Forall_impl; [|apply printable_scalar]. printable_literal.
Qed.

Section Encodable.
Context {rt : Builtins}.

Lemma relay_line_scalar (line : bytes) :
  Forall (Forall scalar) (frames (relay_line line)).
Proof.
  rewrite relay_line_eq. destruct (utf8_decode line) as [text|] eqn:Hdec; [|constructor].
  pose proof (strip_Forall _ _ (utf8_decode_scalar _ _ Hdec)) as Hs.
  destruct (startswith (lit "data: ") (strip text)).
  - constructor; [|constructor]. apply Forall_app. split; [exact Hs|].
    repeat constructor; unfold scalar, NL; lia.
  - destruct (strip text) eqn:E; [constructor|].
    constructor; [|constructor]. apply sse_scalar. exact Hs.
Qed.

Lemma for_each_scalar (lines : list bytes) :
  Forall (Forall scalar) (frames (for_each lines relay_line)).
Proof.
  induction lines as [|line lines IH]; [constructor|].
  pose proof (relay_line_scalar line) as Hl.
  unfold frames in *. simpl.
  destruct (relay_line line) as [t [e|[]]]; simpl in *; [exact Hl|].
  destruct (for_each lines relay_line) as [t' r]. simpl in *.
  rewrite yielded_app. apply Forall_app. split; assumption.
Qed.

Lemma dispatch_scalar settings w request_data response :
  ascii_floats (dict_get request_data (lit "model") (JStr (N8N_MODEL_NAME settings))) ->
  (forall v, json response = inr v -> ascii_floats v) ->
  Forall (Forall scalar) (yielded (fst (dispatch settings w request_data response))).
Proof.
  intros Hmodel Hjson. unfold dispatch. destruct (negb (status response =? 200)).
  { rewrite report_http_error_eq. destruct (text response); [constructor|].
    constructor; [|constructor]. apply error_frame_scalar. }
  destruct (wants_stream request_data).
  - rewrite relay_stream_eq. pose proof (for_each_scalar (content response)) as Hf.
    unfold frames, trace in Hf.
    destruct (for_each (content response) relay_line) as [t [e|[]]]; [exact Hf|].
    destruct (content_end response); exact Hf.
  - rewrite synthesize_completion_eq.
    destruct (json response) as [e|v] eqn:Hv; [constructor|].
    specialize (Hjson v eq_refl).
    destruct v as [| | | | | |d]; try constructor.
    + apply dumps_scalar. cbn [ascii_floats formatted_response]. repeat split; [exact Hmodel|].
      apply dict_get_ascii_floats; [exact Hjson|].
      apply dict_get_ascii_floats; [exact Hjson|exact I].
    + constructor; [|constructor]. apply DONE_scalar.
Qed.

(** X21.  Every chunk the chat-completion route yields is text that UTF-8 can
    encode: it holds Unicode scalar values only, no lone surrogate, whatever
    bytes the webhook sent.  (The floats of a JSON reply print as ASCII.) *)
Theorem every_chunk_is_encodable settings w body user :
  (forall rq response v,
     upstream w rq = inr response -> json response = inr v -> ascii_floats v) ->
  Forall (Forall scalar) (yielded (exchange (chat_completions settings w body user))).
Proof.
  intros Hworld.
  destruct (unconfigured (N8N_WEBHOOK_URL settings)) eqn:Hconf.
  { unfold chat_completions, exchange. unfold unconfigured in Hconf. rewrite Hconf.
    constructor. }
  rewrite (chat_configured _ _ _ _ Hconf). cbn [yielded].
  destruct (upstream w (outbound (N8N_WEBHOOK_URL settings) (n8n_request body user)
                                 (auth_token_arg settings))) as [e|response] eqn:Hup.
  - rewrite (run_refused _ _ _ _ _ _ Hup). constructor; [|constructor].
    apply fault_frame_scalar.
  - rewrite (run_answered _ _ _ _ _ _ Hup), guarded_eq.
    pose proof (dispatch_scalar settings w (n8n_request body user) response I
                  (fun v => Hworld _ response v Hup)) as Hd.
    destruct (dispatch settings w (n8n_request body user) response) as [t [e|[]]];
      unfold trace; simpl in *; [|exact Hd].
    rewrite yielded_app. apply Forall_app. split; [exact Hd|].
    constructor; [|constructor]. apply fault_frame_scalar.
Qed.

End Encodable.

(** ** Instances of the further properties *)

(** X3 at the example settings. *)
Lemma one_request_per_call_witness :
  exists rq,
    posted (exchange (chat_completions (rt := example_builtins) example_settings
                        (answering (answer 200 [] (JDict example_reply) []))
                        (example_body false None) example_user)) = [rq] /\
    req_url rq = example_url /\
    req_json rq = example_envelope false /\
    req_ssl rq = false /\
    req_headers rq !! lit "Content-Type" = Some (lit "application/json").
Proof.
  exact (one_request_per_call (rt := example_builtins) example_settings
           (answering (answer 200 [] (JDict example_reply) []))
           (example_body false None) example_user eq_refl).
Defined.

(** X7 at the reply with content [hi]. *)
Lemma completion_frame_is_one_ascii_line_witness :
  exists payload,
    yielded (exchange (chat_completions (rt := example_builtins) example_settings
                         (answering (answer 200 [] (JDict example_reply) []))
                         (example_body false None) example_user)) =
      [ lit "data: " ++ payload ++ NL ++ NL; DONE ] /\
    Forall printable payload.
Proof.
  refine (completion_frame_is_one_ascii_line (rt := example_builtins) example_settings
            (answering (answer 200 [] (JDict example_reply) []))
            (example_body false None) example_user
            (answer 200 [] (JDict example_reply) []) example_reply
            eq_refl eq_refl eq_refl eq_refl eq_refl _).
  simpl. auto.
Defined.

(** X13 at the reply with content [hi]. *)
Lemma chat_completion_names_body_model_witness :
  exists suffix content,
    yielded (exchange (chat_completions (rt := example_builtins) example_settings
                         (answering (answer 200 [] (JDict example_reply) []))
                         (example_body false None) example_user)) =
      [ sse (json_dumps (completion_object suffix 1700000000 (JStr (lit "n8n-agent")) content));
        DONE ] /\
    content = JStr (lit "hi").
Proof.
  exact (chat_completion_names_body_model (rt := example_builtins) example_settings
           (answering (answer 200 [] (JDict example_reply) []))
           (example_body false None) example_user
           (answer 200 [] (JDict example_reply) []) example_reply
           eq_refl eq_refl eq_refl eq_refl eq_refl).
Defined.

(** X8 at a body of a framed line, a blank line and a bare line. *)
Lemma relay_keeps_order_witness :
  trace (stream_n8n_response (rt := example_builtins) example_settings
           (answering (answer 200 [] JNull example_lines))
           example_url (example_envelope true) (Some (lit "s3cr3t"))) =
  [ Post (outbound example_url (example_envelope true) (Some (lit "s3cr3t")));
    Yield (lit "data: one" ++ NL ++ NL);
    Yield (lit "data: two" ++ NL ++ NL) ].
Proof.
  refine (proj1 (relay_keeps_order (rt := example_builtins) example_settings
                   (answering (answer 200 [] JNull example_lines))
                   example_url (example_envelope true) (Some (lit "s3cr3t"))
                   (answer 200 [] JNull example_lines)
                   eq_refl eq_refl eq_refl eq_refl _)).
  repeat constructor; eexists; reflexivity.
Defined.

(** X9 at a body whose second line is the octet 255. *)
Lemma undecodable_line_ends_relay_witness :
  frames (stream_n8n_response (rt := example_builtins) example_settings
            (answering (answer 200 [] JNull example_broken_lines))
            example_url (example_envelope true) (Some (lit "s3cr3t"))) =
  [ lit "data: one" ++ NL ++ NL;
    error_frame (lit "Unexpected error: <UnicodeDecodeError>") ].
Proof.
  refine (undecodable_line_ends_relay (rt := example_builtins) example_settings
            (answering (answer 200 [] JNull example_broken_lines))
            example_url (example_envelope true) (Some (lit "s3cr3t"))
            (answer 200 [] JNull example_broken_lines)
            [lit "data: one" ++ NL] [255] [lit "two" ++ NL]
            eq_refl eq_refl eq_refl eq_refl _ eq_refl).
  repeat constructor. eexists. reflexivity.
Defined.

(** X10 at the same three ASCII lines. *)
Lemma ascii_body_relayed_whole_witness :
  logged (trace (stream_n8n_response (rt := example_builtins) example_settings
                   (answering (answer 200 [] JNull example_lines))
                   example_url (example_envelope true) (Some (lit "s3cr3t")))) = [] /\
  frames (stream_n8n_response (rt := example_builtins) example_settings
            (answering (answer 200 [] JNull example_lines))
            example_url (example_envelope true) (Some (lit "s3cr3t"))) =
  [ lit "data: one" ++ NL ++ NL; lit "data: two" ++ NL ++ NL ].
Proof.
  refine (ascii_body_relayed_whole (rt := example_builtins) example_settings
            (answering (answer 200 [] JNull example_lines))
            example_url (example_envelope true) (Some (lit "s3cr3t"))
            (answer 200 [] JNull example_lines)
            eq_refl eq_refl eq_refl eq_refl _).
  vm_compute. repeat (constructor; [repeat (constructor; [split; [discriminate|reflexivity]|]); constructor|]).
  constructor.
Defined.

(** X11 at the frame the bare line [two] gives. *)
Lemma relay_is_idempotent_witness :
  relay_line (rt := example_builtins) (lit "data: two" ++ NL ++ NL) =
  ([Yield (lit "data: two" ++ NL ++ NL)], inr tt).
Proof.
  exact (relay_is_idempotent (rt := example_builtins)
           (lit "two" ++ NL) (lit "data: two" ++ NL ++ NL)
           (lit "two" ++ NL) (lit "data: two" ++ NL ++ NL)
           eq_refl eq_refl eq_refl).
Defined.

(** X12 at the bare line [[DONE]]. *)
Lemma relay_yields_sentinel_iff_witness :
  DONE ∈ frames (relay_line (rt := example_builtins) (lit "[DONE]" ++ NL)).
Proof.
  apply (proj2 (relay_yields_sentinel_iff (rt := example_builtins)
                  (lit "[DONE]" ++ NL) (lit "[DONE]" ++ NL) eq_refl)).
  right. reflexivity.
Defined.

(** X14 at a 503 answer, asked for once streamed and once buffered. *)
Lemma http_error_report_ignores_request_witness :
  frames (stream_n8n_response (rt := example_builtins) example_settings
            (answering (answer 503 (lit "overloaded") JNull example_lines))
            example_url (example_envelope true) None) =
  frames (stream_n8n_response (rt := example_builtins) example_settings
            (answering (answer 503 (lit "overloaded") (JDict example_reply) []))
            example_url (example_envelope false) (Some (lit "s3cr3t"))).
Proof.
  refine (proj1 (http_error_report_ignores_request (rt := example_builtins)
                   example_settings example_settings
                   (answering (answer 503 (lit "overloaded") (JDict example_reply) []))
                   (answering (answer 503 (lit "overloaded") JNull example_lines))
                   example_url example_url (example_envelope false) (example_envelope true)
                   (Some (lit "s3cr3t")) None
                   (answer 503 (lit "overloaded") (JDict example_reply) [])
                   (answer 503 (lit "overloaded") JNull example_lines)
                   eq_refl eq_refl _ eq_refl eq_refl)).
  simpl. lia.
Defined.

(** X21 at the reply with content [hi]. *)
Lemma every_chunk_is_encodable_witness :
  Forall (Forall scalar)
    (yielded (exchange (chat_completions (rt := example_builtins) example_settings
                          (answering (answer 200 [] (JDict example_reply) []))
                          (example_body false None) example_user))).
Proof.
  apply (every_chunk_is_encodable (rt := example_builtins)).
  intros rq response v Hup Hv. injection Hup as <-. injection Hv as <-. simpl. auto.
Defined.

(** * The frames, character by character *)

(** ** The text of the synthesized frames *)

Ltac plain_literal :=
  vm_compute; repeat (constructor; [repeat split; discriminate|]); constructor.

Lemma plain_printable (c : Z) : plain c -> printable c.
Proof. unfold plain, printable. tauto. Qed.

Lemma printable_no_break (c : Z) : printable c -> no_break c.
Proof. unfold printable, no_break. lia. Qed.

Lemma escape_plain (c : Z) : plain c -> escape_char c = [c].
Proof.
  intros (Hr & Hq & Hb). unfold escape_char.
  repeat match goal with
         | |- context [?a =? ?b] => destruct (Z.eqb_spec a b); [lia|]
         end.
  destruct (Z.leb_spec 32 c); [|lia]. destruct (Z.leb_spec c 126); [|lia]. reflexivity.
Qed.

Lemma encode_plain (s : str) : Forall plain s -> encode_basestring_ascii s = quoted s.
Proof.
  intros Hs. unfold encode_basestring_ascii, quoted. do 2 f_equal.
  induction Hs as [|c s Hc _ IH]; [reflexivity|].
  cbn [map concat]. rewrite (escape_plain c Hc), IH. reflexivity.
Qed.

Lemma error_frame_chunk (message : str) :
  error_frame message = error_chunk (json_dumps (JStr message)).
Proof.
  unfold error_frame, error_chunk, sse, quoted. cbn [json_dumps].
  change (encode_basestring_ascii (lit "error")) with ([34] ++ lit "error" ++ [34]).
  rewrite <- !app_assoc. reflexivity.
Qed.

Lemma fault_frame_chunk (e : exn) :
  fault_frame e = error_chunk (json_dumps (JStr (fault_message e))).
Proof. destruct e; apply error_frame_chunk. Qed.

Lemma error_chunk_one_event (dumped : str) :
  Forall printable dumped -> one_event (error_chunk dumped).
Proof.
  intros Hd. exists (lit "{" ++ quoted (lit "error") ++ lit ": " ++ dumped ++ lit "}").
  split.
  - unfold error_chunk. rewrite <- !app_assoc. reflexivity.
  - apply Forall_app. split; [repeat constructor; discriminate|].
    apply Forall_app. split; [vm_compute; repeat (constructor; [split; discriminate|]); constructor|].
    apply Forall_app. split; [vm_compute; repeat (constructor; [split; discriminate|]); constructor|].
    apply Forall_app. split; [|repeat constructor; discriminate].
    eapply Forall_impl; [exact Hd|]. apply printable_no_break.
Qed.

Lemma error_chunk_not_DONE (dumped : str) : error_chunk dumped <> DONE.
Proof. unfold error_chunk, DONE. simpl. discriminate. Qed.

Lemma dumped_message_printable (message : str) : Forall printable (json_dumps (JStr message)).
Proof. apply encode_printable. Qed.

Lemma dumped_message_plain (message : str) :
  Forall plain message -> json_dumps (JStr message) = quoted message.
Proof. apply encode_plain. Qed.

Lemma completion_frame_chunk (model_name content : JSON) (w : World) :
  sse (json_dumps (formatted_response model_name w content)) =
  completion_chunk (take 8 (uuid4_hex (urandom16 w))) (clock w)
                  (json_dumps model_name) (json_dumps content).
Proof.
  assert (Hid : encode_basestring_ascii (lit "chatcmpl-" ++ take 8 (uuid4_hex (urandom16 w))) =
                quoted (lit "chatcmpl-" ++ take 8 (uuid4_hex (urandom16 w)))).
  { apply encode_plain, Forall_app. split; [plain_literal|].
    eapply Forall_impl; [apply (uuid4_hex_prefix (urandom16 w))|].
    unfold lower_hex, plain. lia. }
  unfold formatted_response, completion_chunk, sse. cbn [json_dumps]. rewrite Hid.
  unfold quoted. rewrite <- !app_assoc. reflexivity.
Qed.

Lemma error_chunk_inj (a b : str) : error_chunk a = error_chunk b -> a = b.
Proof.
  unfold error_chunk. intros H. do 3 apply app_inv_head in H.
  rewrite !app_assoc in H. do 3 apply app_inv_tail in H. exact H.
Qed.

Lemma dumped_message_head (c : Z) (s : str) :
  plain c -> exists rest, json_dumps (JStr (c :: s)) = 34 :: c :: rest.
Proof.
  intros Hc. cbn [json_dumps]. unfold encode_basestring_ascii.
  cbn [map concat]. rewrite (escape_plain c Hc). eexists. reflexivity.
Qed.

Section Frames.
Context {rt : Builtins}.


Lemma relay_line_one_event (line : bytes) :
  (forall text, utf8_decode line = Some text -> Forall no_break (strip text)) ->
  Forall one_event (frames (relay_line line)).
Proof.
  intros Hline. rewrite relay_line_eq.
  destruct (utf8_decode line) as [text|] eqn:Hdec; [|constructor].
  specialize (Hline text eq_refl).
  destruct (startswith (lit "data: ") (strip text)) eqn:Hp.
  - apply startswith_split in Hp as [rest Hrest]. constructor; [|constructor].
    exists rest. split; [rewrite Hrest, <- !app_assoc; reflexivity|].
    rewrite Hrest in Hline. apply Forall_app in Hline. tauto.
  - destruct (strip text) as [|c d] eqn:Hs; [constructor|].
    constructor; [|constructor]. exists (c :: d). split; [reflexivity|exact Hline].
Qed.

Lemma for_each_one_event (lines : list bytes) :
  (forall line text, line ∈ lines -> utf8_decode line = Some text ->
                     Forall no_break (strip text)) ->
  Forall one_event (frames (for_each lines relay_line)).
Proof.
  induction lines as [|line lines IH]; intros Hlines; [constructor|].
  pose proof (relay_line_one_event line
                (fun text => Hlines line text (list_elem_of_here _ _))) as Hl.
  assert (IH' := IH (fun l t Hin => Hlines l t (list_elem_of_further _ _ _ Hin))).
  unfold frames in *. simpl.
  destruct (relay_line line) as [t [e|[]]]; simpl in *; [exact Hl|].
  destruct (for_each lines relay_line) as [t' r]. simpl in *.
  rewrite yielded_app. apply Forall_app. split; assumption.
Qed.

(** C4, amended.  When the webhook answers with a status outside 200..299,
    the translator yields exactly one frame and returns; the frame is not
    [DONE].  When the body is read as the text [body], the frame is
    [data: {"error": <message>}] and a blank line, where <message> is
    ["n8n webhook error: " + body] as [json.dumps] writes it: printable
    ASCII throughout, and the message itself between quotes when it needs
    no escape.  When reading the body raises, the frame is the one of the
    exception handlers instead. *)
Theorem http_error_single_frame settings w url request_data tok response :
  upstream w (outbound url request_data tok) = inr response ->
  ~ (200 <= status response < 300) ->
  let run := stream_n8n_response settings w url request_data tok in
  snd run = inr tt /\
  (DONE ∉ frames run) /\
  match text response with
  | inr body =>
    let message := lit "n8n webhook error: " ++ body in
    frames run = [error_chunk (json_dumps (JStr message))] /\
    Forall printable (json_dumps (JStr message)) /\
    (Forall plain body -> json_dumps (JStr message) = quoted message)
  | inl e =>
    frames run = [error_chunk (json_dumps (JStr (fault_message e)))]
  end.
Proof.
  intros Hup Hstatus run. subst run.
  run_with Hup.
  destruct (Z.eqb_spec (status response) 200) as [E|_]; [lia|]. simpl negb. cbv iota.
  rewrite report_http_error_eq.
  destruct (text response) as [e|body]; unfold frames, trace; cbn [fst snd yielded app].
  - rewrite fault_frame_chunk. split; [reflexivity|]. split; [|reflexivity].
    intros Hin. apply list_elem_of_singleton in Hin.
    symmetry in Hin. exact (error_chunk_not_DONE _ Hin).
  - rewrite error_frame_chunk. split; [reflexivity|]. split.
    + intros Hin. apply list_elem_of_singleton in Hin.
      symmetry in Hin. exact (error_chunk_not_DONE _ Hin).
    + split; [reflexivity|]. split; [apply dumped_message_printable|].
      intros Hbody. apply dumped_message_plain, Forall_app. split; [plain_literal|exact Hbody].
Qed.

(** C7.  When the exchange fails in transport -- on opening the connection,
    on reading the body of an error or of a buffered answer, or when a
    streamed body breaks off after [lines] were relayed -- the translator
    yields, after the frames of those lines, exactly one more frame and
    returns normally.  That frame is [data: {"error": <message>}] and a
    blank line, with the message ["Connection error: " + cause] for an
    [aiohttp.ClientError] and ["Unexpected error: " + cause] for any other
    exception, as [json.dumps] writes it: printable ASCII throughout (the
    message itself between quotes when it needs no escape), so the frame is
    one SSE event whatever the cause's text holds.  It is not the [DONE]
    sentinel and nothing follows it.  Every frame yielded starts with
    [data: ] and ends with a blank line, and the frames of the relayed lines
    are one SSE event each wherever upstream's lines had no line break
    inside their stripped text: the translator adds none. *)
Theorem transport_fault_single_error_frame settings w url request_data tok e lines :
  transport_fault w (outbound url request_data tok) request_data e lines ->
  snd (for_each lines relay_line) = inr tt ->
  let run := stream_n8n_response settings w url request_data tok in
  let message :=
    match e with
    | ClientError cause => lit "Connection error: " ++ cause
    | OtherException cause => lit "Unexpected error: " ++ cause
    end in
  let frame := error_chunk (json_dumps (JStr message)) in
  frames run = frames (for_each lines relay_line) ++ [frame] /\
  Forall printable (json_dumps (JStr message)) /\
  (Forall plain message -> json_dumps (JStr message) = quoted message) /\
  one_event frame /\
  frame <> DONE /\
  Forall sse_framed (frames run) /\
  ((forall line text, line ∈ lines -> utf8_decode line = Some text ->
                      Forall no_break (strip text)) ->
   Forall one_event (frames run)) /\
  snd run = inr tt.
Proof.
  intros Hfault Hlines run message frame.
  assert (Hframe : frame = fault_frame e).
  { unfold frame, message. rewrite fault_frame_chunk. destruct e; reflexivity. }
  assert (Hrun : frames run = frames (for_each lines relay_line) ++ [frame] /\ snd run = inr tt).
  { subst run. rewrite Hframe. clear Hframe frame message.
    inversion Hfault as [e' Hup | response e' Hup Hst Htext | response e' Hup Hst Hmode Hjson
                        | response e' Hup Hst Hmode Hend]; subst.
    - rewrite (run_refused _ _ _ _ _ _ Hup). split; reflexivity.
    - run_with Hup.
      destruct (Z.eqb_spec (status response) 200) as [E|_]; [contradiction|].
      simpl negb. cbv iota. rewrite report_http_error_eq, Htext. split; reflexivity.
    - run_with Hup.
      rewrite Hst, Hmode. simpl. rewrite synthesize_completion_eq, Hjson. split; reflexivity.
    - run_with Hup.
      rewrite Hst, Hmode. simpl. rewrite relay_stream_eq, Hend.
      destruct (for_each (content response) relay_line) as [t [e0|[]]]; [discriminate|].
      unfold frames, trace. simpl. rewrite yielded_app. split; reflexivity. }
  destruct Hrun as [Hfr Hret].
  assert (Hone : one_event frame) by apply error_chunk_one_event, dumped_message_printable.
  split; [exact Hfr|]. split; [apply dumped_message_printable|].
  split; [apply dumped_message_plain|]. split; [exact Hone|].
  split; [apply error_chunk_not_DONE|].
  split; [|split; [|exact Hret]].
  - rewrite Hfr. apply Forall_app. split; [apply for_each_framed|].
    repeat constructor. rewrite Hframe. apply fault_frame_framed.
  - intros Hbreaks. rewrite Hfr. apply Forall_app. split.
    + apply for_each_one_event, Hbreaks.
    + constructor; [exact Hone|constructor].
Qed.


(** C2, where the code fails the claim.  When the request does not ask for
    streaming and the webhook answers 200 with a body that parses to
    anything but a JSON object -- an array, a string, a number, [null] --
    line 125 raises [AttributeError] before its own fall-back to
    [str(result)] is reached: the translator yields the single frame
    [data: {"error": "Unexpected error: '<type>' object has no attribute
    'get'"}], no completion and no [DONE], and logs the same error. *)
Theorem non_object_reply_dies_in_fallback settings w url request_data tok response result :
  upstream w (outbound url request_data tok) = inr response ->
  status response = 200 ->
  wants_stream request_data = false ->
  json response = inr result ->
  (forall d, result <> JDict d) ->
  let run := stream_n8n_response settings w url request_data tok in
  let message :=
    lit "Unexpected error: '" ++ type_name result ++ lit "' object has no attribute 'get'" in
  frames run = [error_chunk (quoted message)] /\
  (DONE ∉ frames run) /\
  logged (trace run) =
    [lit "n8n webhook unexpected error: '" ++ type_name result ++
     lit "' object has no attribute 'get'"].
Proof.
  intros Hup Hst Hmode Hjson Hnot run message. subst run message.
  run_with Hup. rewrite Hst, Hmode. cbn [Z.eqb Pos.eqb negb]. cbv iota.
  rewrite synthesize_completion_eq, Hjson.
  destruct result as [| | | | | |d]; try (exfalso; exact (Hnot d eq_refl));
    unfold frames, trace; cbn [fst snd yielded logged app fault_frame fault_log];
    (split; [reflexivity|]); (split; [|reflexivity]);
    intros Hin; apply list_elem_of_singleton in Hin;
    vm_compute in Hin; discriminate Hin.
Qed.

(** X22.  The part of C2 the code keeps: when the request does not ask for
    streaming and the webhook answers 200 with a body that parses to a JSON
    object [d], the translator yields exactly two frames and returns: the
    completion, whose text is written out in [completion_chunk] -- id
    ["chatcmpl-"] plus 8 characters of [0-9a-f], object ["chat.completion"],
    created = the clock's seconds, the request's model, one choice (index 0,
    role ["assistant"], finish_reason ["stop"]), usage counters 0, and as
    content [d]'s [content], else its [response], else [str(d)] -- and then
    [data: [DONE]]. *)
Lemma buffered_object_reply_completion settings w url request_data tok response d :
  upstream w (outbound url request_data tok) = inr response ->
  status response = 200 ->
  wants_stream request_data = false ->
  json response = inr (JDict d) ->
  let run := stream_n8n_response settings w url request_data tok in
  let content :=
    if dict_has d (lit "content") then dict_get d (lit "content") JNull
    else if dict_has d (lit "response") then dict_get d (lit "response") JNull
    else JStr (py_str (JDict d)) in
  let model_name := dict_get request_data (lit "model") (JStr (N8N_MODEL_NAME settings)) in
  exists suffix,
    length suffix = 8%nat /\ Forall lower_hex suffix /\
    frames run =
      [ completion_chunk suffix (clock w) (json_dumps model_name) (json_dumps content);
        lit "data: [DONE]" ++ NL ++ NL ] /\
    snd run = inr tt.
Proof.
  intros Hup Hst Hmode Hjson run content model_name. subst run.
  exists (take 8 (uuid4_hex (urandom16 w))).
  destruct (uuid4_hex_prefix (urandom16 w)) as [Hlen Hhex].
  split; [exact Hlen|]. split; [exact Hhex|].
  run_with Hup.
  rewrite Hst, Hmode. cbn [Z.eqb Pos.eqb negb]. cbv iota.
  rewrite synthesize_completion_eq, Hjson.
  rewrite (dict_get_has d (lit "content")), (dict_get_has d (lit "response")).
  unfold frames, trace. cbn [fst snd yielded]. rewrite completion_frame_chunk.
  split; reflexivity.
Qed.

End Frames.

(** ** The import of the configuration *)

Section ConfigImport.
Context {cv : Conversions}.

Lemma import_gives_from_environ (environ : gmap (list Z) (list Z)) cfg :
  import_n8n_config environ = Some cfg -> string_settings cfg = from_environ environ.
Proof.
  unfold import_n8n_config. intros Himp.
  destruct (py_int (getenv environ (lit "N8N_TIMEOUT") (lit "120"))); [|discriminate].
  destruct (py_int (getenv environ (lit "N8N_MAX_RETRIES") (lit "3"))); [|discriminate].
  destruct (py_float (getenv environ (lit "N8N_DEFAULT_TEMPERATURE") (lit "0.7")));
    [|discriminate].
  destruct (py_int (getenv environ (lit "N8N_DEFAULT_MAX_TOKENS") (lit "2048")));
    [|discriminate].
  destruct (py_float (getenv environ (lit "N8N_DEFAULT_TOP_P") (lit "1.0")));
    [|discriminate].
  cbn in Himp. injection Himp as <-. reflexivity.
Qed.

(** A numeric variable that does not parse fails the import, and with it the
    router's. *)
Lemma import_fails_on_bad_timeout (environ : gmap (list Z) (list Z)) :
  py_int (getenv environ (lit "N8N_TIMEOUT") (lit "120")) = None ->
  import_settings true environ = None.
Proof. intros Hbad. unfold import_settings, import_n8n_config. rewrite Hbad. reflexivity. Qed.

(** Whichever way the import succeeds, the URL and the token are the
    environment's. *)
Lemma imported_url_and_token (found : bool) (environ : gmap (list Z) (list Z)) cfg :
  import_settings found environ = Some cfg ->
  N8N_WEBHOOK_URL (string_settings cfg) =
    getenv environ (lit "N8N_WEBHOOK_URL") (lit "YOUR_N8N_WEBHOOK_URL") /\
  N8N_WEBHOOK_AUTH_TOKEN (string_settings cfg) =
    getenv environ (lit "N8N_WEBHOOK_AUTH_TOKEN") [].
Proof.
  destruct found; cbn [import_settings]; intros Himp.
  - rewrite (import_gives_from_environ _ _ Himp). split; reflexivity.
  - injection Himp as <-. split; reflexivity.
Qed.

Context {rt : Builtins}.

(** X16.  Provided the router's import of the configuration succeeds (no
    numeric variable fails to parse): when the environment sets
    [N8N_WEBHOOK_URL] to a usable value the chat-completion route posts to
    exactly that URL, and the request has an [Authorization] header exactly
    when [N8N_WEBHOOK_AUTH_TOKEN] is set to something other than the empty
    string and the placeholder: then it is [Bearer] and that value. *)
Theorem environment_decides_request (found : bool) (environ : gmap (list Z) (list Z)) cfg w body user v :
  import_settings found environ = Some cfg ->
  environ !! lit "N8N_WEBHOOK_URL" = Some v ->
  unconfigured v = false ->
  let settings := string_settings cfg in
  exists rq,
    posted (exchange (chat_completions settings w body user)) = [rq] /\
    req_url rq = v /\
    req_headers rq !! lit "Authorization" =
      match environ !! lit "N8N_WEBHOOK_AUTH_TOKEN" with
      | None => None
      | Some t =>
        if str_eqb t [] || str_eqb t (lit "YOUR_N8N_WEBHOOK_AUTH_TOKEN") then None
        else Some (lit "Bearer " ++ t)
      end.
Proof.
  intros Himp Hurl Hconf settings.
  destruct (imported_url_and_token _ _ _ Himp) as [Hu Ht]. fold settings in Hu, Ht.
  assert (Hv : N8N_WEBHOOK_URL settings = v).
  { rewrite Hu. unfold getenv. unfold str in *. rewrite Hurl. reflexivity. }
  rewrite posted_exchange, Hv, Hconf. eexists. split; [reflexivity|].
  split; [reflexivity|]. cbn [req_headers outbound].
  rewrite header_of_token, Ht. unfold getenv.
  match goal with
  | |- context [match ?o with Some _ => _ | None => _ end] => destruct o as [t|]
  end; reflexivity.
Qed.

(** X17.  Provided the router's import of the configuration succeeds: when
    the environment does not set [N8N_WEBHOOK_URL] the status route reports
    [not_configured] and the chat-completion route raises HTTP 500, sends
    nothing and yields nothing. *)
Theorem unset_url_is_refused (found : bool) (environ : gmap (list Z) (list Z)) cfg w body user :
  import_settings found environ = Some cfg ->
  environ !! lit "N8N_WEBHOOK_URL" = None ->
  let settings := string_settings cfg in
  dict_get (get_status settings) (lit "status") JNull = JStr (lit "not_configured") /\
  snd (chat_completions settings w body user) =
    inl {| status_code := 500;
           detail := lit "n8n webhook URL not configured. Please set the N8N_WEBHOOK_URL." |} /\
  posted (exchange (chat_completions settings w body user)) = [] /\
  yielded (exchange (chat_completions settings w body user)) = [].
Proof.
  intros Himp Hunset settings.
  destruct (imported_url_and_token _ _ _ Himp) as [Hu _]. fold settings in Hu.
  assert (Hurl : N8N_WEBHOOK_URL settings = lit "YOUR_N8N_WEBHOOK_URL").
  { rewrite Hu. unfold getenv. unfold str in *. rewrite Hunset. reflexivity. }
  split; [apply placeholder_url_not_configured, Hurl|].
  assert (Hun : unconfigured (N8N_WEBHOOK_URL settings) = true) by (rewrite Hurl; reflexivity).
  destruct (unconfigured_url_refused settings w body user Hun) as [Hr Hp].
  split; [exact Hr|]. split; [exact Hp|].
  unfold exchange. rewrite Hr. unfold chat_completions. unfold unconfigured in Hun.
  rewrite Hun. reflexivity.
Qed.

End ConfigImport.

(** ** Instances of the exact frames *)

(** C4 at the specification's scenario, 503 with body [overloaded]: the
    frame, character by character. *)
Lemma http_error_single_frame_witness :
  frames (stream_n8n_response (rt := example_builtins) example_settings
            (answering (answer 503 (lit "overloaded") JNull []))
            example_url (example_envelope false) (Some (lit "s3cr3t")))
  = [ lit "data: {" ++ quoted (lit "error") ++ lit ": " ++
      quoted (lit "n8n webhook error: overloaded") ++ lit "}" ++ NL ++ NL ].
Proof.
  refine (proj1 (proj2 (proj2
            (http_error_single_frame (rt := example_builtins) example_settings
               (answering (answer 503 (lit "overloaded") JNull []))
               example_url (example_envelope false) (Some (lit "s3cr3t"))
               (answer 503 (lit "overloaded") JNull []) _ _)))).
  - reflexivity.
  - simpl; lia.
Defined.

(** C7 at a streamed body that breaks off after one line, with a cause that
    ends in a line feed: [json.dumps] writes it as backslash and [n], so the
    frame stays one line. *)
Lemma transport_fault_single_error_frame_witness :
  frames (stream_n8n_response (rt := example_builtins) example_settings
            (answering (interrupted [lit "data: one" ++ NL]
                                    (ClientError (lit "Connection closed" ++ NL))))
            example_url (example_envelope true) (Some (lit "s3cr3t"))) =
  [ lit "data: one" ++ NL ++ NL;
    lit "data: {" ++ quoted (lit "error") ++ lit ": " ++
    quoted (lit "Connection error: Connection closed\n") ++ lit "}" ++ NL ++ NL ].
Proof.
  refine (proj1 (transport_fault_single_error_frame (rt := example_builtins) example_settings
                   (answering (interrupted [lit "data: one" ++ NL]
                                           (ClientError (lit "Connection closed" ++ NL))))
                   example_url (example_envelope true) (Some (lit "s3cr3t"))
                   (ClientError (lit "Connection closed" ++ NL)) [lit "data: one" ++ NL] _ _)).
  - apply (fault_streamed_body _ _ _
             (interrupted [lit "data: one" ++ NL] (ClientError (lit "Connection closed" ++ NL))));
      reflexivity.
  - reflexivity.
Defined.


(** C2's failure at the reply [["hi"]], a JSON array: the one frame, character
    by character. *)
Lemma non_object_reply_dies_in_fallback_witness :
  frames (stream_n8n_response (rt := example_builtins) example_settings
            (answering (answer 200 [] (JList [JStr (lit "hi")]) []))
            example_url (example_envelope false) (Some (lit "s3cr3t"))) =
  [ lit "data: {" ++ quoted (lit "error") ++ lit ": " ++
    quoted (lit "Unexpected error: 'list' object has no attribute 'get'") ++
    lit "}" ++ NL ++ NL ].
Proof.
  refine (proj1 (non_object_reply_dies_in_fallback (rt := example_builtins) example_settings
                   (answering (answer 200 [] (JList [JStr (lit "hi")]) []))
                   example_url (example_envelope false) (Some (lit "s3cr3t"))
                   (answer 200 [] (JList [JStr (lit "hi")]) []) (JList [JStr (lit "hi")])
                   _ _ _ _ _)); try reflexivity.
  intros d. discriminate.
Defined.

(** X22 at the specification's scenario: the reply [{"content": "hi"}]. *)
Lemma buffered_object_reply_completion_witness :
  exists suffix,
    length suffix = 8%nat /\ Forall lower_hex suffix /\
    frames (stream_n8n_response (rt := example_builtins) example_settings
              (answering (answer 200 [] (JDict [(lit "content", JStr (lit "hi"))]) []))
              example_url (example_envelope false) (Some (lit "s3cr3t"))) =
      [ completion_chunk suffix 1700000000 (quoted (lit "n8n-agent")) (quoted (lit "hi"));
        lit "data: [DONE]" ++ NL ++ NL ] /\
    snd (stream_n8n_response (rt := example_builtins) example_settings
              (answering (answer 200 [] (JDict [(lit "content", JStr (lit "hi"))]) []))
              example_url (example_envelope false) (Some (lit "s3cr3t"))) = inr tt.
Proof.
  exact (buffered_object_reply_completion (rt := example_builtins) example_settings
           (answering (answer 200 [] (JDict [(lit "content", JStr (lit "hi"))]) []))
           example_url (example_envelope false) (Some (lit "s3cr3t"))
           (answer 200 [] (JDict [(lit "content", JStr (lit "hi"))]) [])
           [(lit "content", JStr (lit "hi"))]
           eq_refl eq_refl eq_refl eq_refl).
Defined.

(** The same run with the suffix the example's random octets give. *)
Lemma example_completion_frame :
  frames (stream_n8n_response (rt := example_builtins) example_settings
            (answering (answer 200 [] (JDict [(lit "content", JStr (lit "hi"))]) []))
            example_url (example_envelope false) (Some (lit "s3cr3t"))) =
  [ completion_chunk (lit "12345678") 1700000000 (quoted (lit "n8n-agent")) (quoted (lit "hi"));
    lit "data: [DONE]" ++ NL ++ NL ].
Proof. vm_compute. reflexivity. Qed.

(** X16 at an environment that sets the URL and the token. *)
Lemma environment_decides_request_witness :
  exists rq,
    posted (exchange (chat_completions (rt := example_builtins)
                        (from_environ example_environ)
                        (answering (answer 200 [] (JDict example_reply) []))
                        (example_body false None) example_user)) = [rq] /\
    req_url rq = example_url /\
    req_headers rq !! lit "Authorization" = Some (lit "Bearer s3cr3t").
Proof.
  refine (environment_decides_request (cv := example_conversions) (rt := example_builtins)
            true example_environ
            {| string_settings := from_environ example_environ;
               N8N_TIMEOUT := 120; N8N_MAX_RETRIES := 3;
               N8N_DEFAULT_TEMPERATURE := Finite (lit "0.7");
               N8N_DEFAULT_MAX_TOKENS := 2048;
               N8N_DEFAULT_TOP_P := Finite (lit "1.0"); N8N_DEBUG := false |}
            (answering (answer 200 [] (JDict example_reply) []))
            (example_body false None) example_user example_url _ _ _);
    vm_compute; reflexivity.
Defined.

(** X17 at the empty environment. *)
Lemma unset_url_is_refused_witness :
  posted (exchange (chat_completions (rt := example_builtins)
                      (from_environ (∅ : gmap (list Z) (list Z)))
                      (answering (answer 200 [] (JDict example_reply) []))
                      (example_body false None) example_user)) = [].
Proof.
  refine (proj1 (proj2 (proj2
            (unset_url_is_refused (cv := example_conversions) (rt := example_builtins)
               true (∅ : gmap (list Z) (list Z))
               {| string_settings := from_environ (∅ : gmap (list Z) (list Z));
                  N8N_TIMEOUT := 120; N8N_MAX_RETRIES := 3;
                  N8N_DEFAULT_TEMPERATURE := Finite (lit "0.7");
                  N8N_DEFAULT_MAX_TOKENS := 2048;
                  N8N_DEFAULT_TOP_P := Finite (lit "1.0"); N8N_DEBUG := false |}
               (answering (answer 200 [] (JDict example_reply) []))
               (example_body false None) example_user _ _))));
    vm_compute; reflexivity.
Defined.

(** The environment that sets only an empty URL imports: the numeric
    variables take their defaults, which parse. *)
Lemma empty_url_environment_imports :
  string_settings <$> import_settings (cv := example_conversions) true environ_empty_url =
  Some (from_environ environ_empty_url).
Proof. vm_compute. reflexivity. Qed.

(** With [N8N_TIMEOUT=abc] the import raises and there is no router. *)
Lemma bad_timeout_fails_import :
  import_settings (cv := example_conversions) true environ_bad_timeout = None.
Proof. vm_compute. reflexivity. Qed.

(** ** Where the specification and the code part, once more *)

(** C4 fails for an answer whose body cannot be read: a 500 whose body does
    not decode makes [response.text()] raise, and the frame is the catch-all
    handler's, not [n8n webhook error: <body>] for any body. *)
Lemma unreadable_error_body_reported_as_unexpected :
  ~ http_error_claim (rt := example_builtins) example_settings
      (answering (unreadable 500 (OtherException (lit "'utf-8' codec can't decode byte 0xff"))))
      example_url (example_envelope false) (Some (lit "s3cr3t")).
Proof.
  intros Hclaim.
  destruct (Hclaim (unreadable 500 (OtherException (lit "'utf-8' codec can't decode byte 0xff")))
                   eq_refl ltac:(simpl; lia)) as [body Hbody].
  change (frames _) with
    [error_frame (85 :: lit "nexpected error: 'utf-8' codec can't decode byte 0xff")] in Hbody.
  change (lit "n8n webhook error: " ++ body)
    with (110 :: (lit "8n webhook error: " ++ body)) in Hbody.
  assert (Hframe : error_frame (85 :: lit "nexpected error: 'utf-8' codec can't decode byte 0xff") =
                   error_frame (110 :: (lit "8n webhook error: " ++ body))) by congruence.
  rewrite !error_frame_chunk in Hframe. apply error_chunk_inj in Hframe.
  destruct (dumped_message_head 85 (lit "nexpected error: 'utf-8' codec can't decode byte 0xff"))
    as [r1 E1]; [unfold plain; lia|].
  destruct (dumped_message_head 110 (lit "8n webhook error: " ++ body))
    as [r2 E2]; [unfold plain; lia|].
  rewrite E1, E2 in Hframe. discriminate Hframe.
Qed.
